(** * testrail-mcp: the tool-call dispatcher of [src/index.ts]

    A shallow embedding of the [TestRailMCP] class: the tool registry
    answered to [ListTools], the [CallTool] handler with its [switch],
    session resolution, the two transports ([makeRequest] and
    [makeMultipartRequest]) and every per-tool method that builds an
    endpoint and a payload.

    Conventions of the embedding.
    - A JavaScript value that can come out of JSON is a [JsValue]; numbers
      are the integers ([Z]) that TestRail identifiers and filters are,
      printed in plain decimal digits.  Fractions, [NaN] and the exponent
      notation of very large numbers are outside the model.
    - A JavaScript string is a [string] holding its UTF-8 bytes; a
      [Buffer] is a [list byte].  Ill-formed UTF-16 (a lone surrogate, on
      which [encodeURIComponent] throws) has no counterpart here.
    - An object is an association list in insertion order with unique
      keys, which is the order [JSON.stringify] prints.
    - [async] methods are computations in the monad [M]: they read the
      [World] (environment, session map, file system, remote service),
      may throw, and log every request handed to [axios]. *)

From Stdlib Require Import ZArith NArith List Bool Lia.
From Stdlib Require Import Strings.String Strings.Ascii Strings.Byte.
From Stdlib Require Import Numbers.DecimalString.
Import ListNotations.
Open Scope string_scope.
Set Warnings "-register-all".

(** ** JavaScript values *)

Inductive JsValue : Type :=
| JUndefined
| JNull
| JBool (b : bool)
| JNum (n : Z)
| JStr (s : string)
| JArr (items : list JsValue)
| JObj (fields : list (string * JsValue)).

Definition Object := list (string * JsValue).

(** [o.k]: the value of the property, [undefined] when there is none. *)
Fixpoint prop (o : Object) (k : string) : JsValue :=
  match o with
  | [] => JUndefined
  | (k', v) :: rest => if String.eqb k' k then v else prop rest k
  end.

(** [o.k = v]: overwrite in place, or append a new property. *)
Fixpoint set_prop (o : Object) (k : string) (v : JsValue) : Object :=
  match o with
  | [] => [(k, v)]
  | (k', v') :: rest =>
      if String.eqb k' k then (k', v) :: rest else (k', v') :: set_prop rest k v
  end.

(** [if (c) o.k = v;] *)
Definition set_when (c : bool) (k : string) (v : JsValue) (o : Object) : Object :=
  if c then set_prop o k v else o.

(** ToBoolean: the test of [if (x)], [x ? a : b] and [x && y]. *)
Definition toBoolean (v : JsValue) : bool :=
  match v with
  | JUndefined | JNull => false
  | JBool b => b
  | JNum n => negb (Z.eqb n 0)
  | JStr s => negb (String.eqb s "")
  | JArr _ | JObj _ => true
  end.

(** [x !== undefined] *)
Definition defined (v : JsValue) : bool :=
  match v with
  | JUndefined => false
  | _ => true
  end.

Definition string_of_Z (n : Z) : string :=
  NilZero.string_of_int (Z.to_int n).

(** ToString, as a template literal [`${x}`] applies it.  An array prints
    its elements joined by commas, [null] and [undefined] as nothing. *)
Fixpoint toString (v : JsValue) : string :=
  match v with
  | JUndefined => "undefined"
  | JNull => "null"
  | JBool true => "true"
  | JBool false => "false"
  | JNum n => string_of_Z n
  | JStr s => s
  | JArr items =>
      (fix join (l : list JsValue) : string :=
         match l with
         | [] => ""
         | x :: r =>
             (match x with
              | JUndefined | JNull => ""
              | _ => toString x
              end)
             ++ (match r with
                 | [] => ""
                 | _ :: _ => "," ++ join r
                 end)
         end) items
  | JObj _ => "[object Object]"
  end.

(** [parts.join(sep)] on an array of strings. *)
Fixpoint join (sep : string) (parts : list string) : string :=
  match parts with
  | [] => ""
  | [p] => p
  | p :: rest => p ++ sep ++ join sep rest
  end.

(** ** Characters that string literals cannot spell *)

Definition dquote : string := String "034"%char "".
Definition CR : string := String "013"%char "".
Definition LF : string := String "010"%char "".
Definition CRLF : string := CR ++ LF.

Definition hex_digit (upper : bool) (n : N) : ascii :=
  let digits := if upper then "0123456789ABCDEF" else "0123456789abcdef" in
  match String.get (N.to_nat n) digits with
  | Some c => c
  | None => "0"%char
  end.

Definition hex2 (upper : bool) (c : ascii) : string :=
  let n := N_of_ascii c in
  String (hex_digit upper (N.div n 16)) (String (hex_digit upper (N.modulo n 16)) "").

(** ** JSON.stringify(value, null, 2) *)

Definition quote_char (c : ascii) : string :=
  let n := N_of_ascii c in
  if N.eqb n 34 then "\" ++ dquote
  else if N.eqb n 92 then "\\"
  else if N.eqb n 8 then "\b"
  else if N.eqb n 12 then "\f"
  else if N.eqb n 10 then "\n"
  else if N.eqb n 13 then "\r"
  else if N.eqb n 9 then "\t"
  else if N.ltb n 32 then "\u00" ++ hex2 false c
  else String c "".

Fixpoint quote_body (s : string) : string :=
  match s with
  | EmptyString => ""
  | String c r => quote_char c ++ quote_body r
  end.

Definition quoteJSONString (s : string) : string :=
  dquote ++ quote_body s ++ dquote.

(** [None] is JavaScript's [undefined]: what [JSON.stringify(undefined)]
    returns.  Inside an object an [undefined] property is left out; inside
    an array it prints as [null]. *)
Fixpoint stringify (indent : string) (v : JsValue) : option string :=
  match v with
  | JUndefined => None
  | JNull => Some "null"
  | JBool true => Some "true"
  | JBool false => Some "false"
  | JNum n => Some (string_of_Z n)
  | JStr s => Some (quoteJSONString s)
  | JArr items =>
      let inner := indent ++ "  " in
      let parts :=
        map (fun x => match stringify inner x with
                      | Some t => t
                      | None => "null"
                      end) items in
      match parts with
      | [] => Some "[]"
      | _ :: _ =>
          Some ("[" ++ LF ++ inner ++ join ("," ++ LF ++ inner) parts
                    ++ LF ++ indent ++ "]")
      end
  | JObj fields =>
      let inner := indent ++ "  " in
      let parts :=
        flat_map (fun kv =>
                    match kv with
                    | (k, x) =>
                        match stringify inner x with
                        | Some t => [quoteJSONString k ++ ": " ++ t]
                        | None => []
                        end
                    end) fields in
      match parts with
      | [] => Some "{}"
      | _ :: _ =>
          Some ("{" ++ LF ++ inner ++ join ("," ++ LF ++ inner) parts
                    ++ LF ++ indent ++ "}")
      end
  end.

Definition JSON_stringify (v : JsValue) : option string := stringify "" v.

(** The properties that reach the wire when an object is sent as a JSON
    body: [JSON.stringify] drops those whose value is [undefined]. *)
Definition wire_fields (o : Object) : Object :=
  filter (fun kv => defined (snd kv)) o.

(** ** encodeURIComponent *)

Definition uri_unreserved (c : ascii) : bool :=
  let n := N_of_ascii c in
  (N.leb 65 n && N.leb n 90) || (N.leb 97 n && N.leb n 122)
  || (N.leb 48 n && N.leb n 57)
  || existsb (Ascii.eqb c) (list_ascii_of_string "-_.!~*'()").

Fixpoint uri_escape (s : string) : string :=
  match s with
  | EmptyString => ""
  | String c r =>
      (if uri_unreserved c then String c "" else "%" ++ hex2 true c)
      ++ uri_escape r
  end.

Definition encodeURIComponent (v : JsValue) : string :=
  uri_escape (toString v).

(** ** Buffer.from(text) and buffer.toString('base64') *)

Definition Buffer := list byte.

Definition Buffer_from (s : string) : Buffer := list_byte_of_string s.

Definition Buffer_concat (parts : list Buffer) : Buffer := List.concat parts.

Definition b64_char (n : N) : ascii :=
  match String.get (N.to_nat n)
          "ABCDEFGHIJKLMNOPQRSTUVWXYZabcdefghijklmnopqrstuvwxyz0123456789+/" with
  | Some c => c
  | None => "="%char
  end.

Fixpoint base64_of (l : list N) : string :=
  match l with
  | [] => ""
  | [a] =>
      String (b64_char (N.shiftr a 2))
        (String (b64_char (N.shiftl (N.land a 3) 4)) "==")
  | [a; b] =>
      String (b64_char (N.shiftr a 2))
        (String (b64_char (N.lor (N.shiftl (N.land a 3) 4) (N.shiftr b 4)))
           (String (b64_char (N.shiftl (N.land b 15) 2)) "="))
  | a :: b :: c :: rest =>
      String (b64_char (N.shiftr a 2))
        (String (b64_char (N.lor (N.shiftl (N.land a 3) 4) (N.shiftr b 4)))
           (String (b64_char (N.lor (N.shiftl (N.land b 15) 2) (N.shiftr c 6)))
              (String (b64_char (N.land c 63)) (base64_of rest))))
  end.

Definition toString_base64 (b : Buffer) : string :=
  base64_of (map Byte.to_N b).

(** ** path.basename (POSIX) *)

Definition is_slash (c : ascii) : bool := Ascii.eqb c "/"%char.

Fixpoint drop_slashes (l : list ascii) : list ascii :=
  match l with
  | c :: r => if is_slash c then drop_slashes r else l
  | [] => []
  end.

Fixpoint take_name (l : list ascii) : list ascii :=
  match l with
  | c :: r => if is_slash c then [] else c :: take_name r
  | [] => []
  end.

(** Trailing slashes are skipped, then the name runs back to the previous
    slash. *)
Definition basename (p : string) : string :=
  string_of_list_ascii
    (rev (take_name (drop_slashes (rev (list_ascii_of_string p))))).

(** ** The world around one tool call *)

Record UserSession := {
  testrailUrl : string;
  username : string;
  apiKey : string;
  sessionId : string
}.

Inductive Method := GET | POST | DELETE.

(** What is handed to [axios] as [data]: a JavaScript value ([undefined]
    when the call has no body) or the bytes of a multipart body. *)
Inductive RequestData :=
| JsonData (v : JsValue)
| BufferData (b : Buffer).

Record Request := {
  method : Method;
  url : string;
  headers : list (string * string);
  data : RequestData;
  responseType : option string
}.

(** A response of the remote service: [response_data] is [response.data]
    as decoded for a JSON call, [response_bytes] the body as the
    [arraybuffer] a download asks for. *)
Record Response := {
  response_data : JsValue;
  response_bytes : Buffer;
  response_content_type : JsValue
}.

(** A thrown value: an [Error] with its message, or anything else. *)
Inductive Exn :=
| Error (message : string)
| NotAnError.

Inductive Outcome (A : Type) :=
| Returned (a : A)
| Thrown (e : Exn).
Arguments Returned {A} a.
Arguments Thrown {A} e.

Record World := {
  env_TESTRAIL_URL : option string;
  env_TESTRAIL_USERNAME : option string;
  env_TESTRAIL_API_KEY : option string;
  (** [this.userSessions], a [Map] in insertion order *)
  userSessions : list (string * UserSession);
  (** [fs.readFileSync] on a path, and on a file descriptor *)
  fs_read_path : string -> Outcome Buffer;
  fs_read_fd : Z -> Outcome Buffer;
  (** [Math.random().toString(36).substring(2)] of this call *)
  random_base36 : string;
  (** the remote service behind [axios]: a response, or the thrown error
      of a failed call or a status outside 2xx *)
  axios_result : Request -> Outcome Response
}.

(** ** The monad of [async] methods *)

Definition M (A : Type) : Type := World -> Outcome A * list Request.

Definition ret {A} (a : A) : M A := fun _ => (Returned a, []).

Definition throw {A} (e : Exn) : M A := fun _ => (Thrown e, []).

Definition bind {A B} (m : M A) (k : A -> M B) : M B :=
  fun w =>
    match m w with
    | (Returned a, sent) =>
        match k a w with
        | (r, sent') => (r, (sent ++ sent')%list)
        end
    | (Thrown e, sent) => (Thrown e, sent)
    end.

Notation "x <- c ;; k" := (bind c (fun x => k))
  (at level 61, c at next level, right associativity).
Notation "c ;;; k" := (bind c (fun _ => k))
  (at level 61, right associativity).

(** [try { body } catch (error) { handler }] *)
Definition try_catch {A} (body : M A) (handler : Exn -> M A) : M A :=
  fun w =>
    match body w with
    | (Returned a, sent) => (Returned a, sent)
    | (Thrown e, sent) =>
        match handler e w with
        | (r, sent') => (r, (sent ++ sent')%list)
        end
    end.

Definition ask : M World := fun w => (Returned w, []).

Definition lift {A} (o : Outcome A) : M A := fun _ => (o, []).

(** [await axios(config)]: the one place a request leaves the process. *)
Definition axios (config : Request) : M Response :=
  fun w => (axios_result w config, [config]).

Definition result {A} (r : Outcome A * list Request) : Outcome A := fst r.
Definition sent {A} (r : Outcome A * list Request) : list Request := snd r.

(** ** Arguments of a call

    [request.params.arguments] is an object or, when the caller left it
    out, [undefined]; reading a property of [undefined] throws. *)

Definition Args := option Object.

Definition reading (args : Args) (k : string) : M Object :=
  match args with
  | Some o => ret o
  | None =>
      throw (Error ("Cannot read properties of undefined (reading '" ++ k ++ "')"))
  end.

(** ** The response envelope *)

Record ContentItem := { type : string; text : option string }.
Record CallToolResult := { content : list ContentItem }.

Module TestRailMCP.

(** *** ListTools: the registry *)

Record ToolSpec := tool {
  name : string;
  properties : list (string * string);
  required : list string
}.

(** Name, declared properties with their [type], and [required] list of
    every entry, in source order (descriptions and item shapes left out). *)
Definition tools : list ToolSpec :=
  [
    tool "get_projects"
      []
      [];
    tool "get_project"
      [("project_id", "number")]
      ["project_id"];
    tool "get_suites"
      [("project_id", "number")]
      ["project_id"];
    tool "get_suite"
      [("suite_id", "number")]
      ["suite_id"];
    tool "add_suite"
      [("project_id", "number"); ("name", "string"); ("description", "string")]
      ["project_id"; "name"];
    tool "update_suite"
      [("suite_id", "number"); ("name", "string"); ("description", "string")]
      ["suite_id"];
    tool "get_sections"
      [("project_id", "number"); ("suite_id", "number")]
      ["project_id"];
    tool "get_section"
      [("section_id", "number")]
      ["section_id"];
    tool "add_section"
      [("project_id", "number"); ("suite_id", "number");
       ("parent_id", "number"); ("name", "string"); ("description", "string")]
      ["project_id"; "name"];
    tool "update_section"
      [("section_id", "number"); ("name", "string"); ("description", "string")]
      ["section_id"];
    tool "delete_section"
      [("section_id", "number")]
      ["section_id"];
    tool "move_section"
      [("section_id", "number"); ("parent_id", "number");
       ("after_id", "number")]
      ["section_id"];
    tool "get_cases"
      [("project_id", "number"); ("suite_id", "number");
       ("section_id", "number")]
      ["project_id"];
    tool "get_case"
      [("case_id", "number")]
      ["case_id"];
    tool "add_case"
      [("section_id", "number"); ("title", "string"); ("template_id", "number");
       ("type_id", "number"); ("priority_id", "number"); ("estimate", "string");
       ("milestone_id", "number"); ("refs", "string");
       ("custom_preconds", "string"); ("custom_steps", "string");
       ("custom_expected", "string"); ("custom_autostat", "number");
       ("custom_steps_separated", "array")]
      ["section_id"; "title"];
    tool "update_case"
      [("case_id", "number"); ("title", "string"); ("template_id", "number");
       ("type_id", "number"); ("priority_id", "number"); ("estimate", "string");
       ("refs", "string"); ("custom_preconds", "string");
       ("custom_steps", "string"); ("custom_expected", "string");
       ("custom_steps_separated", "array")]
      ["case_id"];
    tool "delete_case"
      [("case_id", "number")]
      ["case_id"];
    tool "get_case_types"
      []
      [];
    tool "get_case_fields"
      []
      [];
    tool "get_history_for_case"
      [("case_id", "number"); ("limit", "number"); ("offset", "number")]
      ["case_id"];
    tool "copy_cases_to_section"
      [("section_id", "number"); ("case_ids", "array")]
      ["section_id"; "case_ids"];
    tool "move_cases_to_section"
      [("section_id", "number"); ("suite_id", "number"); ("case_ids", "array")]
      ["section_id"; "suite_id"; "case_ids"];
    tool "delete_cases"
      [("project_id", "number"); ("suite_id", "number"); ("case_ids", "array");
       ("soft", "number")]
      ["project_id"; "case_ids"];
    tool "get_runs"
      [("project_id", "number")]
      ["project_id"];
    tool "get_run"
      [("run_id", "number")]
      ["run_id"];
    tool "add_run"
      [("project_id", "number"); ("suite_id", "number"); ("name", "string");
       ("description", "string"); ("milestone_id", "number");
       ("assignedto_id", "number"); ("include_all", "boolean");
       ("case_ids", "array")]
      ["project_id"; "name"];
    tool "update_run"
      [("run_id", "number"); ("name", "string"); ("description", "string");
       ("milestone_id", "number")]
      ["run_id"];
    tool "close_run"
      [("run_id", "number")]
      ["run_id"];
    tool "delete_run"
      [("run_id", "number"); ("soft", "number")]
      ["run_id"];
    tool "get_tests"
      [("run_id", "number")]
      ["run_id"];
    tool "get_test"
      [("test_id", "number")]
      ["test_id"];
    tool "get_results"
      [("test_id", "number")]
      ["test_id"];
    tool "get_results_for_case"
      [("run_id", "number"); ("case_id", "number")]
      ["run_id"; "case_id"];
    tool "get_results_for_run"
      [("run_id", "number")]
      ["run_id"];
    tool "add_result"
      [("test_id", "number"); ("status_id", "number"); ("comment", "string");
       ("elapsed", "string"); ("defects", "string")]
      ["test_id"; "status_id"];
    tool "add_result_for_case"
      [("run_id", "number"); ("case_id", "number"); ("status_id", "number");
       ("comment", "string"); ("elapsed", "string")]
      ["run_id"; "case_id"; "status_id"];
    tool "add_results_for_cases"
      [("run_id", "number"); ("results", "array")]
      ["run_id"; "results"];
    tool "add_results"
      [("run_id", "number"); ("results", "array")]
      ["run_id"; "results"];
    tool "get_plans"
      [("project_id", "number")]
      ["project_id"];
    tool "get_plan"
      [("plan_id", "number")]
      ["plan_id"];
    tool "add_plan"
      [("project_id", "number"); ("name", "string"); ("description", "string");
       ("milestone_id", "number"); ("entries", "array")]
      ["project_id"; "name"];
    tool "add_plan_entry"
      [("plan_id", "number"); ("suite_id", "number"); ("name", "string");
       ("description", "string"); ("assignedto_id", "number");
       ("include_all", "boolean"); ("case_ids", "array");
       ("config_ids", "array"); ("refs", "string"); ("runs", "array")]
      ["plan_id"; "suite_id"];
    tool "add_run_to_plan_entry"
      [("plan_id", "number"); ("entry_id", "string"); ("config_ids", "array");
       ("description", "string"); ("assignedto_id", "number");
       ("include_all", "boolean"); ("case_ids", "array"); ("refs", "string")]
      ["plan_id"; "entry_id"; "config_ids"];
    tool "update_plan"
      [("plan_id", "number"); ("name", "string"); ("description", "string");
       ("milestone_id", "number")]
      ["plan_id"];
    tool "update_plan_entry"
      [("plan_id", "number"); ("entry_id", "string"); ("name", "string");
       ("description", "string"); ("assignedto_id", "number");
       ("include_all", "boolean"); ("case_ids", "array"); ("refs", "string")]
      ["plan_id"; "entry_id"];
    tool "update_run_in_plan_entry"
      [("run_id", "number"); ("description", "string");
       ("assignedto_id", "number"); ("include_all", "boolean");
       ("case_ids", "array"); ("refs", "string")]
      ["run_id"];
    tool "close_plan"
      [("plan_id", "number")]
      ["plan_id"];
    tool "delete_plan"
      [("plan_id", "number")]
      ["plan_id"];
    tool "delete_plan_entry"
      [("plan_id", "number"); ("entry_id", "string")]
      ["plan_id"; "entry_id"];
    tool "delete_run_from_plan_entry"
      [("run_id", "number")]
      ["run_id"];
    tool "get_milestones"
      [("project_id", "number")]
      ["project_id"];
    tool "get_milestone"
      [("milestone_id", "number")]
      ["milestone_id"];
    tool "add_milestone"
      [("project_id", "number"); ("name", "string"); ("description", "string");
       ("due_on", "number"); ("parent_id", "number"); ("refs", "string");
       ("start_on", "number")]
      ["project_id"; "name"];
    tool "update_milestone"
      [("milestone_id", "number"); ("name", "string");
       ("description", "string"); ("due_on", "number");
       ("is_completed", "boolean"); ("is_started", "boolean");
       ("parent_id", "number"); ("start_on", "number")]
      ["milestone_id"];
    tool "delete_milestone"
      [("milestone_id", "number")]
      ["milestone_id"];
    tool "get_user"
      [("user_id", "number")]
      ["user_id"];
    tool "get_current_user"
      []
      [];
    tool "get_user_by_email"
      [("email", "string")]
      ["email"];
    tool "get_users"
      [("project_id", "number")]
      [];
    tool "get_statuses"
      []
      [];
    tool "get_case_statuses"
      []
      [];
    tool "get_priorities"
      []
      [];
    tool "get_templates"
      [("project_id", "number")]
      ["project_id"];
    tool "get_configs"
      [("project_id", "number")]
      ["project_id"];
    tool "get_result_fields"
      []
      [];
    tool "add_attachment_to_case"
      [("case_id", "number"); ("file_path", "string")]
      ["case_id"; "file_path"];
    tool "add_attachment_to_result"
      [("result_id", "number"); ("file_path", "string")]
      ["result_id"; "file_path"];
    tool "add_attachment_to_run"
      [("run_id", "number"); ("file_path", "string")]
      ["run_id"; "file_path"];
    tool "add_attachment_to_plan"
      [("plan_id", "number"); ("file_path", "string")]
      ["plan_id"; "file_path"];
    tool "add_attachment_to_plan_entry"
      [("plan_id", "number"); ("entry_id", "string"); ("file_path", "string")]
      ["plan_id"; "entry_id"; "file_path"];
    tool "get_attachment"
      [("attachment_id", "string")]
      ["attachment_id"];
    tool "get_attachments_for_case"
      [("case_id", "number"); ("limit", "number"); ("offset", "number")]
      ["case_id"];
    tool "get_attachments_for_test"
      [("test_id", "number")]
      ["test_id"];
    tool "get_attachments_for_run"
      [("run_id", "number"); ("limit", "number"); ("offset", "number")]
      ["run_id"];
    tool "get_attachments_for_plan"
      [("plan_id", "number"); ("limit", "number"); ("offset", "number")]
      ["plan_id"];
    tool "get_attachments_for_plan_entry"
      [("plan_id", "number"); ("entry_id", "string")]
      ["plan_id"; "entry_id"];
    tool "delete_attachment"
      [("attachment_id", "string")]
      ["attachment_id"]
  ].

(** *** Session resolution *)

Definition env_truthy (v : option string) : bool :=
  match v with
  | Some s => negb (String.eqb s "")
  | None => false
  end.

Definition env_value (v : option string) : string :=
  match v with
  | Some s => s
  | None => ""
  end.

Definition getCurrentUserSession (w : World) : option UserSession :=
  let testrailUrl := env_TESTRAIL_URL w in
  let username := env_TESTRAIL_USERNAME w in
  let apiKey := env_TESTRAIL_API_KEY w in
  if env_truthy testrailUrl && env_truthy username && env_truthy apiKey then
    Some {| testrailUrl := env_value testrailUrl;
            username := env_value username;
            apiKey := env_value apiKey;
            sessionId := "env-session" |}
  else
    let sessions := map snd (userSessions w) in
    match sessions with
    | s :: _ => Some s
    | [] => None
    end.

Definition not_authenticated : Exn :=
  Error "Not authenticated. Please configure TestRail credentials.".

Definition basic_auth (session : UserSession) : string :=
  toString_base64 (Buffer_from (username session ++ ":" ++ apiKey session)).

Definition api_url (session : UserSession) (endpoint : string) : string :=
  testrailUrl session ++ "/index.php?/api/v2/" ++ endpoint.

(** *** makeRequest *)

Definition json_request (session : UserSession) (endpoint : string)
    (method : Method) (data : JsValue) : Request :=
  {| method := method;
     url := api_url session endpoint;
     headers := [("Authorization", "Basic " ++ basic_auth session);
                 ("Content-Type", "application/json")];
     data := JsonData data;
     responseType := None |}.

Definition makeRequest (endpoint : string) (method : Method) (data : JsValue)
    : M JsValue :=
  w <- ask ;;
  match getCurrentUserSession w with
  | None => throw not_authenticated
  | Some session =>
      response <- axios (json_request session endpoint method data) ;;
      ret (response_data response)
  end.

Definition formatResponse (data : JsValue) : CallToolResult :=
  {| content := [ {| type := "text"; text := JSON_stringify data |} ] |}.

(** *** makeMultipartRequest *)

Definition received (v : JsValue) : string :=
  match v with
  | JUndefined => "Received undefined"
  | JNull => "Received null"
  | JBool b => "Received type boolean (" ++ toString v ++ ")"
  | JNum n => "Received type number (" ++ toString v ++ ")"
  | JStr s => "Received type string ('" ++ s ++ "')"
  | JArr _ => "Received an instance of Array"
  | JObj _ => "Received an instance of Object"
  end.

Definition readFileSync (filePath : JsValue) : M Buffer :=
  w <- ask ;;
  match filePath with
  | JStr p => lift (fs_read_path w p)
  | JNum fd => lift (fs_read_fd w fd)
  | _ =>
      throw (Error ("The " ++ dquote ++ "path" ++ dquote
                    ++ " argument must be of type string or an instance of Buffer or URL. "
                    ++ received filePath))
  end.

Definition path_basename (filePath : JsValue) : M string :=
  match filePath with
  | JStr p => ret (basename p)
  | _ =>
      throw (Error ("The " ++ dquote ++ "path" ++ dquote
                    ++ " argument must be of type string. " ++ received filePath))
  end.

Definition multipart_body (boundary fileName : string) (fileBuffer : Buffer)
    : Buffer :=
  Buffer_concat
    [ Buffer_from ("--" ++ boundary ++ CRLF);
      Buffer_from ("Content-Disposition: form-data; name=" ++ dquote
                   ++ "attachment" ++ dquote ++ "; filename=" ++ dquote
                   ++ fileName ++ dquote ++ CRLF);
      Buffer_from ("Content-Type: application/octet-stream" ++ CRLF ++ CRLF);
      fileBuffer;
      Buffer_from (CRLF ++ "--" ++ boundary ++ "--" ++ CRLF) ].

Definition multipart_request (session : UserSession) (endpoint boundary : string)
    (body : Buffer) : Request :=
  {| method := POST;
     url := api_url session endpoint;
     headers := [("Authorization", "Basic " ++ basic_auth session);
                 ("Content-Type", "multipart/form-data; boundary=" ++ boundary)];
     data := BufferData body;
     responseType := None |}.

Definition makeMultipartRequest (endpoint : string) (filePath : JsValue)
    : M JsValue :=
  w <- ask ;;
  match getCurrentUserSession w with
  | None => throw not_authenticated
  | Some session =>
      fileBuffer <- readFileSync filePath ;;
      fileName <- path_basename filePath ;;
      let boundary := "----FormBoundary" ++ random_base36 w in
      let body := multipart_body boundary fileName fileBuffer in
      response <- axios (multipart_request session endpoint boundary body) ;;
      ret (response_data response)
  end.

(** *** Statements that recur in the methods *)

(** [if (args.k) payload.k = args.k;] *)
Definition copy_if_truthy (args : Object) (k : string) (payload : Object) : Object :=
  set_when (toBoolean (prop args k)) k (prop args k) payload.

(** [if (args.k !== undefined) payload.k = args.k;] *)
Definition copy_if_defined (args : Object) (k : string) (payload : Object) : Object :=
  set_when (defined (prop args k)) k (prop args k) payload.

(** [if (args.k) params.push(`k=${args.k}`);] *)
Definition push_if_truthy (args : Object) (k : string) (params : list string)
    : list string :=
  if toBoolean (prop args k)
  then List.app params [k ++ "=" ++ toString (prop args k)]
  else params.

(** [if (params.length > 0) endpoint += `<sep>${params.join('&')}`;] *)
Definition append_params (sep : string) (params : list string) (endpoint : string)
    : string :=
  if Nat.ltb 0 (List.length params)
  then endpoint ++ sep ++ join "&" params
  else endpoint.

(** [if (args.k) endpoint += `&k=${args.k}`;] *)
Definition append_if_truthy (args : Object) (k : string) (endpoint : string)
    : string :=
  if toBoolean (prop args k)
  then endpoint ++ "&" ++ k ++ "=" ++ toString (prop args k)
  else endpoint.

(** *** Projects *)

Definition getProjects : M CallToolResult :=
  data <- makeRequest "get_projects" GET JUndefined ;;
  ret (formatResponse data).

Definition getProject (projectId : JsValue) : M CallToolResult :=
  data <- makeRequest ("get_project/" ++ toString projectId) GET JUndefined ;;
  ret (formatResponse data).

(** *** Suites *)

Definition getSuites (projectId : JsValue) : M CallToolResult :=
  data <- makeRequest ("get_suites/" ++ toString projectId) GET JUndefined ;;
  ret (formatResponse data).

Definition getSuite (suiteId : JsValue) : M CallToolResult :=
  data <- makeRequest ("get_suite/" ++ toString suiteId) GET JUndefined ;;
  ret (formatResponse data).

Definition addSuite (args : Args) : M CallToolResult :=
  args <- reading args "project_id" ;;
  data <- makeRequest ("add_suite/" ++ toString (prop args "project_id")) POST
            (JObj [("name", prop args "name");
                   ("description", prop args "description")]) ;;
  ret (formatResponse data).

Definition updateSuite (args : Args) : M CallToolResult :=
  args <- reading args "name" ;;
  let payload := [] in
  let payload := copy_if_truthy args "name" payload in
  let payload := copy_if_defined args "description" payload in
  data <- makeRequest ("update_suite/" ++ toString (prop args "suite_id")) POST
            (JObj payload) ;;
  ret (formatResponse data).

(** *** Sections *)

Definition getSections (args : Args) : M CallToolResult :=
  args <- reading args "project_id" ;;
  let endpoint := "get_sections/" ++ toString (prop args "project_id") in
  let endpoint := append_if_truthy args "suite_id" endpoint in
  data <- makeRequest endpoint GET JUndefined ;;
  ret (formatResponse data).

Definition getSection (sectionId : JsValue) : M CallToolResult :=
  data <- makeRequest ("get_section/" ++ toString sectionId) GET JUndefined ;;
  ret (formatResponse data).

Definition addSection (args : Args) : M CallToolResult :=
  args <- reading args "name" ;;
  let payload := [("name", prop args "name")] in
  let payload := copy_if_truthy args "description" payload in
  let payload := copy_if_truthy args "suite_id" payload in
  let payload := copy_if_truthy args "parent_id" payload in
  data <- makeRequest ("add_section/" ++ toString (prop args "project_id")) POST
            (JObj payload) ;;
  ret (formatResponse data).

Definition updateSection (args : Args) : M CallToolResult :=
  args <- reading args "name" ;;
  let payload := [] in
  let payload := copy_if_truthy args "name" payload in
  let payload := copy_if_defined args "description" payload in
  data <- makeRequest ("update_section/" ++ toString (prop args "section_id")) POST
            (JObj payload) ;;
  ret (formatResponse data).

Definition deleteSection (sectionId : JsValue) : M CallToolResult :=
  makeRequest ("delete_section/" ++ toString sectionId) POST JUndefined ;;;
  ret (formatResponse
         (JObj [("success", JBool true); ("message", JStr "Section deleted")])).

Definition moveSection (args : Args) : M CallToolResult :=
  args <- reading args "parent_id" ;;
  let payload := [] in
  let payload := copy_if_defined args "parent_id" payload in
  let payload := copy_if_defined args "after_id" payload in
  data <- makeRequest ("move_section/" ++ toString (prop args "section_id")) POST
            (JObj payload) ;;
  ret (formatResponse data).

(** *** Cases *)

Definition getCases (args : Args) : M CallToolResult :=
  args <- reading args "project_id" ;;
  let endpoint := "get_cases/" ++ toString (prop args "project_id") in
  let params := [] in
  let params := push_if_truthy args "suite_id" params in
  let params := push_if_truthy args "section_id" params in
  let endpoint := append_params "&" params endpoint in
  data <- makeRequest endpoint GET JUndefined ;;
  ret (formatResponse data).

Definition getCase (caseId : JsValue) : M CallToolResult :=
  data <- makeRequest ("get_case/" ++ toString caseId) GET JUndefined ;;
  ret (formatResponse data).

Definition addCase (args : Args) : M CallToolResult :=
  args <- reading args "title" ;;
  let payload := [("title", prop args "title")] in
  let payload := copy_if_defined args "template_id" payload in
  let payload := copy_if_defined args "type_id" payload in
  let payload := copy_if_defined args "priority_id" payload in
  let payload := copy_if_defined args "estimate" payload in
  let payload := copy_if_defined args "milestone_id" payload in
  let payload := copy_if_defined args "refs" payload in
  let payload := copy_if_defined args "custom_preconds" payload in
  let payload := copy_if_defined args "custom_steps" payload in
  let payload := copy_if_defined args "custom_expected" payload in
  let payload := copy_if_defined args "custom_autostat" payload in
  let payload := copy_if_defined args "custom_steps_separated" payload in
  data <- makeRequest ("add_case/" ++ toString (prop args "section_id")) POST
            (JObj payload) ;;
  ret (formatResponse data).

Definition updateCase (args : Args) : M CallToolResult :=
  args <- reading args "title" ;;
  let payload := [] in
  let payload := copy_if_defined args "title" payload in
  let payload := copy_if_defined args "template_id" payload in
  let payload := copy_if_defined args "type_id" payload in
  let payload := copy_if_defined args "priority_id" payload in
  let payload := copy_if_defined args "estimate" payload in
  let payload := copy_if_defined args "refs" payload in
  let payload := copy_if_defined args "custom_preconds" payload in
  let payload := copy_if_defined args "custom_steps" payload in
  let payload := copy_if_defined args "custom_expected" payload in
  let payload := copy_if_defined args "custom_steps_separated" payload in
  data <- makeRequest ("update_case/" ++ toString (prop args "case_id")) POST
            (JObj payload) ;;
  ret (formatResponse data).

Definition deleteCase (caseId : JsValue) : M CallToolResult :=
  makeRequest ("delete_case/" ++ toString caseId) POST JUndefined ;;;
  ret (formatResponse
         (JObj [("success", JBool true); ("message", JStr "Case deleted")])).

Definition getCaseTypes : M CallToolResult :=
  data <- makeRequest "get_case_types" GET JUndefined ;;
  ret (formatResponse data).

Definition getCaseFields : M CallToolResult :=
  data <- makeRequest "get_case_fields" GET JUndefined ;;
  ret (formatResponse data).

Definition getHistoryForCase (args : Args) : M CallToolResult :=
  args <- reading args "case_id" ;;
  let endpoint := "get_history_for_case/" ++ toString (prop args "case_id") in
  let params := [] in
  let params := push_if_truthy args "limit" params in
  let params := push_if_truthy args "offset" params in
  let endpoint := append_params "&" params endpoint in
  data <- makeRequest endpoint GET JUndefined ;;
  ret (formatResponse data).

Definition copyCasesToSection (args : Args) : M CallToolResult :=
  args <- reading args "section_id" ;;
  data <- makeRequest ("copy_cases_to_section/" ++ toString (prop args "section_id"))
            POST (JObj [("case_ids", prop args "case_ids")]) ;;
  ret (formatResponse data).

Definition moveCasesToSection (args : Args) : M CallToolResult :=
  args <- reading args "section_id" ;;
  data <- makeRequest ("move_cases_to_section/" ++ toString (prop args "section_id"))
            POST (JObj [("suite_id", prop args "suite_id");
                        ("case_ids", prop args "case_ids")]) ;;
  ret (formatResponse data).

Definition deleteCases (args : Args) : M CallToolResult :=
  args <- reading args "project_id" ;;
  let endpoint := "delete_cases/" ++ toString (prop args "project_id") in
  let endpoint := append_if_truthy args "suite_id" endpoint in
  let endpoint := append_if_truthy args "soft" endpoint in
  data <- makeRequest endpoint POST (JObj [("case_ids", prop args "case_ids")]) ;;
  ret (formatResponse data).

(** *** Runs *)

Definition getRuns (projectId : JsValue) : M CallToolResult :=
  data <- makeRequest ("get_runs/" ++ toString projectId) GET JUndefined ;;
  ret (formatResponse data).

Definition getRun (runId : JsValue) : M CallToolResult :=
  data <- makeRequest ("get_run/" ++ toString runId) GET JUndefined ;;
  ret (formatResponse data).

Definition addRun (args : Args) : M CallToolResult :=
  args <- reading args "name" ;;
  let payload := [("name", prop args "name")] in
  let payload := copy_if_truthy args "description" payload in
  let payload := copy_if_truthy args "suite_id" payload in
  let payload := copy_if_truthy args "milestone_id" payload in
  let payload := copy_if_truthy args "assignedto_id" payload in
  let payload := copy_if_defined args "include_all" payload in
  let payload := copy_if_truthy args "case_ids" payload in
  data <- makeRequest ("add_run/" ++ toString (prop args "project_id")) POST
            (JObj payload) ;;
  ret (formatResponse data).

Definition updateRun (args : Args) : M CallToolResult :=
  args <- reading args "name" ;;
  let payload := [] in
  let payload := copy_if_truthy args "name" payload in
  let payload := copy_if_defined args "description" payload in
  let payload := copy_if_defined args "milestone_id" payload in
  data <- makeRequest ("update_run/" ++ toString (prop args "run_id")) POST
            (JObj payload) ;;
  ret (formatResponse data).

Definition closeRun (runId : JsValue) : M CallToolResult :=
  data <- makeRequest ("close_run/" ++ toString runId) POST JUndefined ;;
  ret (formatResponse data).

Definition deleteRun (args : Args) : M CallToolResult :=
  args <- reading args "run_id" ;;
  let endpoint := "delete_run/" ++ toString (prop args "run_id") in
  let endpoint := append_if_truthy args "soft" endpoint in
  makeRequest endpoint POST JUndefined ;;;
  ret (formatResponse
         (JObj [("success", JBool true); ("message", JStr "Run deleted")])).

(** *** Tests *)

Definition getTests (runId : JsValue) : M CallToolResult :=
  data <- makeRequest ("get_tests/" ++ toString runId) GET JUndefined ;;
  ret (formatResponse data).

Definition getTest (testId : JsValue) : M CallToolResult :=
  data <- makeRequest ("get_test/" ++ toString testId) GET JUndefined ;;
  ret (formatResponse data).

(** *** Results *)

Definition getResults (testId : JsValue) : M CallToolResult :=
  data <- makeRequest ("get_results/" ++ toString testId) GET JUndefined ;;
  ret (formatResponse data).

Definition getResultsForCase (args : Args) : M CallToolResult :=
  args <- reading args "run_id" ;;
  data <- makeRequest ("get_results_for_case/" ++ toString (prop args "run_id")
                       ++ "/" ++ toString (prop args "case_id")) GET JUndefined ;;
  ret (formatResponse data).

Definition getResultsForRun (runId : JsValue) : M CallToolResult :=
  data <- makeRequest ("get_results_for_run/" ++ toString runId) GET JUndefined ;;
  ret (formatResponse data).

Definition addResult (args : Args) : M CallToolResult :=
  args <- reading args "status_id" ;;
  let payload := [("status_id", prop args "status_id")] in
  let payload := copy_if_truthy args "comment" payload in
  let payload := copy_if_truthy args "elapsed" payload in
  let payload := copy_if_truthy args "defects" payload in
  data <- makeRequest ("add_result/" ++ toString (prop args "test_id")) POST
            (JObj payload) ;;
  ret (formatResponse data).

Definition addResultForCase (args : Args) : M CallToolResult :=
  args <- reading args "status_id" ;;
  let payload := [("status_id", prop args "status_id")] in
  let payload := copy_if_truthy args "comment" payload in
  let payload := copy_if_truthy args "elapsed" payload in
  data <- makeRequest ("add_result_for_case/" ++ toString (prop args "run_id")
                       ++ "/" ++ toString (prop args "case_id")) POST
            (JObj payload) ;;
  ret (formatResponse data).

Definition addResultsForCases (args : Args) : M CallToolResult :=
  args <- reading args "run_id" ;;
  data <- makeRequest ("add_results_for_cases/" ++ toString (prop args "run_id"))
            POST (JObj [("results", prop args "results")]) ;;
  ret (formatResponse data).

Definition addResults (args : Args) : M CallToolResult :=
  args <- reading args "run_id" ;;
  data <- makeRequest ("add_results/" ++ toString (prop args "run_id"))
            POST (JObj [("results", prop args "results")]) ;;
  ret (formatResponse data).

(** *** Plans *)

Definition getPlans (projectId : JsValue) : M CallToolResult :=
  data <- makeRequest ("get_plans/" ++ toString projectId) GET JUndefined ;;
  ret (formatResponse data).

Definition getPlan (planId : JsValue) : M CallToolResult :=
  data <- makeRequest ("get_plan/" ++ toString planId) GET JUndefined ;;
  ret (formatResponse data).

Definition addPlan (args : Args) : M CallToolResult :=
  args <- reading args "name" ;;
  let payload := [("name", prop args "name")] in
  let payload := copy_if_truthy args "description" payload in
  let payload := copy_if_truthy args "milestone_id" payload in
  let payload := copy_if_truthy args "entries" payload in
  data <- makeRequest ("add_plan/" ++ toString (prop args "project_id")) POST
            (JObj payload) ;;
  ret (formatResponse data).

Definition addPlanEntry (args : Args) : M CallToolResult :=
  args <- reading args "suite_id" ;;
  let payload := [("suite_id", prop args "suite_id")] in
  let payload := copy_if_truthy args "name" payload in
  let payload := copy_if_truthy args "description" payload in
  let payload := copy_if_truthy args "assignedto_id" payload in
  let payload := copy_if_defined args "include_all" payload in
  let payload := copy_if_truthy args "case_ids" payload in
  let payload := copy_if_truthy args "config_ids" payload in
  let payload := copy_if_truthy args "refs" payload in
  let payload := copy_if_truthy args "runs" payload in
  data <- makeRequest ("add_plan_entry/" ++ toString (prop args "plan_id")) POST
            (JObj payload) ;;
  ret (formatResponse data).

Definition addRunToPlanEntry (args : Args) : M CallToolResult :=
  args <- reading args "config_ids" ;;
  let payload := [("config_ids", prop args "config_ids")] in
  let payload := copy_if_truthy args "description" payload in
  let payload := copy_if_truthy args "assignedto_id" payload in
  let payload := copy_if_defined args "include_all" payload in
  let payload := copy_if_truthy args "case_ids" payload in
  let payload := copy_if_truthy args "refs" payload in
  data <- makeRequest ("add_run_to_plan_entry/" ++ toString (prop args "plan_id")
                       ++ "/" ++ toString (prop args "entry_id")) POST
            (JObj payload) ;;
  ret (formatResponse data).

Definition updatePlan (args : Args) : M CallToolResult :=
  args <- reading args "name" ;;
  let payload := [] in
  let payload := copy_if_truthy args "name" payload in
  let payload := copy_if_defined args "description" payload in
  let payload := copy_if_defined args "milestone_id" payload in
  data <- makeRequest ("update_plan/" ++ toString (prop args "plan_id")) POST
            (JObj payload) ;;
  ret (formatResponse data).

Definition updatePlanEntry (args : Args) : M CallToolResult :=
  args <- reading args "name" ;;
  let payload := [] in
  let payload := copy_if_truthy args "name" payload in
  let payload := copy_if_defined args "description" payload in
  let payload := copy_if_defined args "assignedto_id" payload in
  let payload := copy_if_defined args "include_all" payload in
  let payload := copy_if_truthy args "case_ids" payload in
  let payload := copy_if_defined args "refs" payload in
  data <- makeRequest ("update_plan_entry/" ++ toString (prop args "plan_id")
                       ++ "/" ++ toString (prop args "entry_id")) POST
            (JObj payload) ;;
  ret (formatResponse data).

Definition updateRunInPlanEntry (args : Args) : M CallToolResult :=
  args <- reading args "description" ;;
  let payload := [] in
  let payload := copy_if_defined args "description" payload in
  let payload := copy_if_defined args "assignedto_id" payload in
  let payload := copy_if_defined args "include_all" payload in
  let payload := copy_if_truthy args "case_ids" payload in
  let payload := copy_if_defined args "refs" payload in
  data <- makeRequest ("update_run_in_plan_entry/" ++ toString (prop args "run_id"))
            POST (JObj payload) ;;
  ret (formatResponse data).

Definition closePlan (planId : JsValue) : M CallToolResult :=
  data <- makeRequest ("close_plan/" ++ toString planId) POST JUndefined ;;
  ret (formatResponse data).

Definition deletePlan (planId : JsValue) : M CallToolResult :=
  makeRequest ("delete_plan/" ++ toString planId) POST JUndefined ;;;
  ret (formatResponse
         (JObj [("success", JBool true); ("message", JStr "Plan deleted")])).

Definition deletePlanEntry (args : Args) : M CallToolResult :=
  args <- reading args "plan_id" ;;
  makeRequest ("delete_plan_entry/" ++ toString (prop args "plan_id")
               ++ "/" ++ toString (prop args "entry_id")) POST JUndefined ;;;
  ret (formatResponse
         (JObj [("success", JBool true); ("message", JStr "Plan entry deleted")])).

Definition deleteRunFromPlanEntry (runId : JsValue) : M CallToolResult :=
  makeRequest ("delete_run_from_plan_entry/" ++ toString runId) POST JUndefined ;;;
  ret (formatResponse
         (JObj [("success", JBool true);
                ("message", JStr "Run removed from plan entry")])).

(** *** Milestones *)

Definition getMilestones (projectId : JsValue) : M CallToolResult :=
  data <- makeRequest ("get_milestones/" ++ toString projectId) GET JUndefined ;;
  ret (formatResponse data).

Definition getMilestone (milestoneId : JsValue) : M CallToolResult :=
  data <- makeRequest ("get_milestone/" ++ toString milestoneId) GET JUndefined ;;
  ret (formatResponse data).

Definition addMilestone (args : Args) : M CallToolResult :=
  args <- reading args "name" ;;
  let payload := [("name", prop args "name")] in
  let payload := copy_if_truthy args "description" payload in
  let payload := copy_if_truthy args "due_on" payload in
  let payload := copy_if_truthy args "parent_id" payload in
  let payload := copy_if_truthy args "refs" payload in
  let payload := copy_if_truthy args "start_on" payload in
  data <- makeRequest ("add_milestone/" ++ toString (prop args "project_id")) POST
            (JObj payload) ;;
  ret (formatResponse data).

Definition updateMilestone (args : Args) : M CallToolResult :=
  args <- reading args "name" ;;
  let payload := [] in
  let payload := copy_if_truthy args "name" payload in
  let payload := copy_if_defined args "description" payload in
  let payload := copy_if_defined args "due_on" payload in
  let payload := copy_if_defined args "is_completed" payload in
  let payload := copy_if_defined args "is_started" payload in
  let payload := copy_if_defined args "parent_id" payload in
  let payload := copy_if_defined args "start_on" payload in
  data <- makeRequest ("update_milestone/" ++ toString (prop args "milestone_id"))
            POST (JObj payload) ;;
  ret (formatResponse data).

Definition deleteMilestone (milestoneId : JsValue) : M CallToolResult :=
  makeRequest ("delete_milestone/" ++ toString milestoneId) POST JUndefined ;;;
  ret (formatResponse
         (JObj [("success", JBool true); ("message", JStr "Milestone deleted")])).

(** *** Users *)

Definition getUser (userId : JsValue) : M CallToolResult :=
  data <- makeRequest ("get_user/" ++ toString userId) GET JUndefined ;;
  ret (formatResponse data).

Definition getCurrentUser : M CallToolResult :=
  data <- makeRequest "get_current_user" GET JUndefined ;;
  ret (formatResponse data).

Definition getUserByEmail (email : JsValue) : M CallToolResult :=
  data <- makeRequest ("get_user_by_email&email=" ++ encodeURIComponent email)
            GET JUndefined ;;
  ret (formatResponse data).

Definition getUsers (projectId : JsValue) : M CallToolResult :=
  let endpoint :=
    if toBoolean projectId then "get_users/" ++ toString projectId
    else "get_users" in
  data <- makeRequest endpoint GET JUndefined ;;
  ret (formatResponse data).

(** *** Statuses, priorities, templates, configurations, result fields *)

Definition getStatuses : M CallToolResult :=
  data <- makeRequest "get_statuses" GET JUndefined ;;
  ret (formatResponse data).

Definition getCaseStatuses : M CallToolResult :=
  data <- makeRequest "get_case_statuses" GET JUndefined ;;
  ret (formatResponse data).

Definition getPriorities : M CallToolResult :=
  data <- makeRequest "get_priorities" GET JUndefined ;;
  ret (formatResponse data).

Definition getTemplates (projectId : JsValue) : M CallToolResult :=
  data <- makeRequest ("get_templates/" ++ toString projectId) GET JUndefined ;;
  ret (formatResponse data).

Definition getConfigs (projectId : JsValue) : M CallToolResult :=
  data <- makeRequest ("get_configs/" ++ toString projectId) GET JUndefined ;;
  ret (formatResponse data).

Definition getResultFields : M CallToolResult :=
  data <- makeRequest "get_result_fields" GET JUndefined ;;
  ret (formatResponse data).

(** *** Attachments: upload *)

Definition addAttachmentToCase (args : Args) : M CallToolResult :=
  args <- reading args "case_id" ;;
  data <- makeMultipartRequest
            ("add_attachment_to_case/" ++ toString (prop args "case_id"))
            (prop args "file_path") ;;
  ret (formatResponse data).

Definition addAttachmentToResult (args : Args) : M CallToolResult :=
  args <- reading args "result_id" ;;
  data <- makeMultipartRequest
            ("add_attachment_to_result/" ++ toString (prop args "result_id"))
            (prop args "file_path") ;;
  ret (formatResponse data).

Definition addAttachmentToRun (args : Args) : M CallToolResult :=
  args <- reading args "run_id" ;;
  data <- makeMultipartRequest
            ("add_attachment_to_run/" ++ toString (prop args "run_id"))
            (prop args "file_path") ;;
  ret (formatResponse data).

Definition addAttachmentToPlan (args : Args) : M CallToolResult :=
  args <- reading args "plan_id" ;;
  data <- makeMultipartRequest
            ("add_attachment_to_plan/" ++ toString (prop args "plan_id"))
            (prop args "file_path") ;;
  ret (formatResponse data).

Definition addAttachmentToPlanEntry (args : Args) : M CallToolResult :=
  args <- reading args "plan_id" ;;
  data <- makeMultipartRequest
            ("add_attachment_to_plan_entry/" ++ toString (prop args "plan_id")
             ++ "/" ++ toString (prop args "entry_id"))
            (prop args "file_path") ;;
  ret (formatResponse data).

(** *** Attachments: read *)

Definition attachment_request (session : UserSession) (attachmentId : JsValue)
    : Request :=
  {| method := GET;
     url := api_url session ("get_attachment/" ++ toString attachmentId);
     headers := [("Authorization", "Basic " ++ basic_auth session)];
     data := JsonData JUndefined;
     responseType := Some "arraybuffer" |}.

Definition getAttachment (attachmentId : JsValue) : M CallToolResult :=
  w <- ask ;;
  match getCurrentUserSession w with
  | None => throw not_authenticated
  | Some session =>
      response <- axios (attachment_request session attachmentId) ;;
      ret (formatResponse
             (JObj [("message", JStr "Attachment retrieved successfully");
                    ("attachment_id", attachmentId);
                    ("size", JNum (Z.of_nat (List.length (response_bytes response))));
                    ("content_type", response_content_type response)]))
  end.

Definition getAttachmentsForCase (args : Args) : M CallToolResult :=
  args <- reading args "case_id" ;;
  let endpoint := "get_attachments_for_case/" ++ toString (prop args "case_id") in
  let params := [] in
  let params := push_if_truthy args "limit" params in
  let params := push_if_truthy args "offset" params in
  let endpoint := append_params "&" params endpoint in
  data <- makeRequest endpoint GET JUndefined ;;
  ret (formatResponse data).

Definition getAttachmentsForTest (testId : JsValue) : M CallToolResult :=
  data <- makeRequest ("get_attachments_for_test/" ++ toString testId)
            GET JUndefined ;;
  ret (formatResponse data).

Definition getAttachmentsForRun (args : Args) : M CallToolResult :=
  args <- reading args "run_id" ;;
  let endpoint := "get_attachments_for_run/" ++ toString (prop args "run_id") in
  let params := [] in
  let params := push_if_truthy args "limit" params in
  let params := push_if_truthy args "offset" params in
  let endpoint := append_params "?" params endpoint in
  data <- makeRequest endpoint GET JUndefined ;;
  ret (formatResponse data).

Definition getAttachmentsForPlan (args : Args) : M CallToolResult :=
  args <- reading args "plan_id" ;;
  let endpoint := "get_attachments_for_plan/" ++ toString (prop args "plan_id") in
  let params := [] in
  let params := push_if_truthy args "limit" params in
  let params := push_if_truthy args "offset" params in
  let endpoint := append_params "&" params endpoint in
  data <- makeRequest endpoint GET JUndefined ;;
  ret (formatResponse data).

Definition getAttachmentsForPlanEntry (args : Args) : M CallToolResult :=
  args <- reading args "plan_id" ;;
  data <- makeRequest ("get_attachments_for_plan_entry/"
                       ++ toString (prop args "plan_id")
                       ++ "/" ++ toString (prop args "entry_id")) GET JUndefined ;;
  ret (formatResponse data).

(** *** Attachments: delete *)

Definition deleteAttachment (attachmentId : JsValue) : M CallToolResult :=
  makeRequest ("delete_attachment/" ++ toString attachmentId) POST JUndefined ;;;
  ret (formatResponse
         (JObj [("success", JBool true); ("message", JStr "Attachment deleted")])).

(** *** The [switch] of the CallTool handler

    One constructor per [case] label, in source order. *)

Inductive Tool : Set :=
| get_projects
| get_project
| get_suites
| get_suite
| add_suite
| update_suite
| get_sections
| get_section
| add_section
| update_section
| delete_section
| move_section
| get_cases
| get_case
| add_case
| update_case
| delete_case
| get_case_types
| get_case_fields
| get_history_for_case
| copy_cases_to_section
| move_cases_to_section
| delete_cases
| get_runs
| get_run
| add_run
| update_run
| close_run
| delete_run
| get_tests
| get_test
| get_results
| get_results_for_case
| get_results_for_run
| add_result
| add_result_for_case
| add_results_for_cases
| add_results
| get_plans
| get_plan
| add_plan
| add_plan_entry
| add_run_to_plan_entry
| update_plan
| update_plan_entry
| update_run_in_plan_entry
| close_plan
| delete_plan
| delete_plan_entry
| delete_run_from_plan_entry
| get_milestones
| get_milestone
| add_milestone
| update_milestone
| delete_milestone
| get_user
| get_current_user
| get_user_by_email
| get_users
| get_statuses
| get_case_statuses
| get_priorities
| get_templates
| get_configs
| get_result_fields
| add_attachment_to_case
| add_attachment_to_result
| add_attachment_to_run
| add_attachment_to_plan
| add_attachment_to_plan_entry
| get_attachment
| get_attachments_for_case
| get_attachments_for_test
| get_attachments_for_run
| get_attachments_for_plan
| get_attachments_for_plan_entry
| delete_attachment.

Definition tool_name (t : Tool) : string :=
  match t with
  | get_projects => "get_projects"
  | get_project => "get_project"
  | get_suites => "get_suites"
  | get_suite => "get_suite"
  | add_suite => "add_suite"
  | update_suite => "update_suite"
  | get_sections => "get_sections"
  | get_section => "get_section"
  | add_section => "add_section"
  | update_section => "update_section"
  | delete_section => "delete_section"
  | move_section => "move_section"
  | get_cases => "get_cases"
  | get_case => "get_case"
  | add_case => "add_case"
  | update_case => "update_case"
  | delete_case => "delete_case"
  | get_case_types => "get_case_types"
  | get_case_fields => "get_case_fields"
  | get_history_for_case => "get_history_for_case"
  | copy_cases_to_section => "copy_cases_to_section"
  | move_cases_to_section => "move_cases_to_section"
  | delete_cases => "delete_cases"
  | get_runs => "get_runs"
  | get_run => "get_run"
  | add_run => "add_run"
  | update_run => "update_run"
  | close_run => "close_run"
  | delete_run => "delete_run"
  | get_tests => "get_tests"
  | get_test => "get_test"
  | get_results => "get_results"
  | get_results_for_case => "get_results_for_case"
  | get_results_for_run => "get_results_for_run"
  | add_result => "add_result"
  | add_result_for_case => "add_result_for_case"
  | add_results_for_cases => "add_results_for_cases"
  | add_results => "add_results"
  | get_plans => "get_plans"
  | get_plan => "get_plan"
  | add_plan => "add_plan"
  | add_plan_entry => "add_plan_entry"
  | add_run_to_plan_entry => "add_run_to_plan_entry"
  | update_plan => "update_plan"
  | update_plan_entry => "update_plan_entry"
  | update_run_in_plan_entry => "update_run_in_plan_entry"
  | close_plan => "close_plan"
  | delete_plan => "delete_plan"
  | delete_plan_entry => "delete_plan_entry"
  | delete_run_from_plan_entry => "delete_run_from_plan_entry"
  | get_milestones => "get_milestones"
  | get_milestone => "get_milestone"
  | add_milestone => "add_milestone"
  | update_milestone => "update_milestone"
  | delete_milestone => "delete_milestone"
  | get_user => "get_user"
  | get_current_user => "get_current_user"
  | get_user_by_email => "get_user_by_email"
  | get_users => "get_users"
  | get_statuses => "get_statuses"
  | get_case_statuses => "get_case_statuses"
  | get_priorities => "get_priorities"
  | get_templates => "get_templates"
  | get_configs => "get_configs"
  | get_result_fields => "get_result_fields"
  | add_attachment_to_case => "add_attachment_to_case"
  | add_attachment_to_result => "add_attachment_to_result"
  | add_attachment_to_run => "add_attachment_to_run"
  | add_attachment_to_plan => "add_attachment_to_plan"
  | add_attachment_to_plan_entry => "add_attachment_to_plan_entry"
  | get_attachment => "get_attachment"
  | get_attachments_for_case => "get_attachments_for_case"
  | get_attachments_for_test => "get_attachments_for_test"
  | get_attachments_for_run => "get_attachments_for_run"
  | get_attachments_for_plan => "get_attachments_for_plan"
  | get_attachments_for_plan_entry => "get_attachments_for_plan_entry"
  | delete_attachment => "delete_attachment"
  end.

Definition all_tools : list Tool :=
  [ get_projects;
    get_project;
    get_suites;
    get_suite;
    add_suite;
    update_suite;
    get_sections;
    get_section;
    add_section;
    update_section;
    delete_section;
    move_section;
    get_cases;
    get_case;
    add_case;
    update_case;
    delete_case;
    get_case_types;
    get_case_fields;
    get_history_for_case;
    copy_cases_to_section;
    move_cases_to_section;
    delete_cases;
    get_runs;
    get_run;
    add_run;
    update_run;
    close_run;
    delete_run;
    get_tests;
    get_test;
    get_results;
    get_results_for_case;
    get_results_for_run;
    add_result;
    add_result_for_case;
    add_results_for_cases;
    add_results;
    get_plans;
    get_plan;
    add_plan;
    add_plan_entry;
    add_run_to_plan_entry;
    update_plan;
    update_plan_entry;
    update_run_in_plan_entry;
    close_plan;
    delete_plan;
    delete_plan_entry;
    delete_run_from_plan_entry;
    get_milestones;
    get_milestone;
    add_milestone;
    update_milestone;
    delete_milestone;
    get_user;
    get_current_user;
    get_user_by_email;
    get_users;
    get_statuses;
    get_case_statuses;
    get_priorities;
    get_templates;
    get_configs;
    get_result_fields;
    add_attachment_to_case;
    add_attachment_to_result;
    add_attachment_to_run;
    add_attachment_to_plan;
    add_attachment_to_plan_entry;
    get_attachment;
    get_attachments_for_case;
    get_attachments_for_test;
    get_attachments_for_run;
    get_attachments_for_plan;
    get_attachments_for_plan_entry;
    delete_attachment ].

(** The label that [switch (name)] selects, if any. *)
Definition tool_of_name (name : string) : option Tool :=
  find (fun t => String.eqb (tool_name t) name) all_tools.

Definition run_case (t : Tool) (args : Args) : M CallToolResult :=
  match t with
  | get_projects => getProjects
  | get_project =>
      args <- reading args "project_id" ;; getProject (prop args "project_id")
  | get_suites =>
      args <- reading args "project_id" ;; getSuites (prop args "project_id")
  | get_suite =>
      args <- reading args "suite_id" ;; getSuite (prop args "suite_id")
  | add_suite => addSuite args
  | update_suite => updateSuite args
  | get_sections => getSections args
  | get_section =>
      args <- reading args "section_id" ;; getSection (prop args "section_id")
  | add_section => addSection args
  | update_section => updateSection args
  | delete_section =>
      args <- reading args "section_id" ;; deleteSection (prop args "section_id")
  | move_section => moveSection args
  | get_cases => getCases args
  | get_case =>
      args <- reading args "case_id" ;; getCase (prop args "case_id")
  | add_case => addCase args
  | update_case => updateCase args
  | delete_case =>
      args <- reading args "case_id" ;; deleteCase (prop args "case_id")
  | get_case_types => getCaseTypes
  | get_case_fields => getCaseFields
  | get_history_for_case => getHistoryForCase args
  | copy_cases_to_section => copyCasesToSection args
  | move_cases_to_section => moveCasesToSection args
  | delete_cases => deleteCases args
  | get_runs =>
      args <- reading args "project_id" ;; getRuns (prop args "project_id")
  | get_run =>
      args <- reading args "run_id" ;; getRun (prop args "run_id")
  | add_run => addRun args
  | update_run => updateRun args
  | close_run =>
      args <- reading args "run_id" ;; closeRun (prop args "run_id")
  | delete_run => deleteRun args
  | get_tests =>
      args <- reading args "run_id" ;; getTests (prop args "run_id")
  | get_test =>
      args <- reading args "test_id" ;; getTest (prop args "test_id")
  | get_results =>
      args <- reading args "test_id" ;; getResults (prop args "test_id")
  | get_results_for_case => getResultsForCase args
  | get_results_for_run =>
      args <- reading args "run_id" ;; getResultsForRun (prop args "run_id")
  | add_result => addResult args
  | add_result_for_case => addResultForCase args
  | add_results_for_cases => addResultsForCases args
  | add_results => addResults args
  | get_plans =>
      args <- reading args "project_id" ;; getPlans (prop args "project_id")
  | get_plan =>
      args <- reading args "plan_id" ;; getPlan (prop args "plan_id")
  | add_plan => addPlan args
  | add_plan_entry => addPlanEntry args
  | add_run_to_plan_entry => addRunToPlanEntry args
  | update_plan => updatePlan args
  | update_plan_entry => updatePlanEntry args
  | update_run_in_plan_entry => updateRunInPlanEntry args
  | close_plan =>
      args <- reading args "plan_id" ;; closePlan (prop args "plan_id")
  | delete_plan =>
      args <- reading args "plan_id" ;; deletePlan (prop args "plan_id")
  | delete_plan_entry => deletePlanEntry args
  | delete_run_from_plan_entry =>
      args <- reading args "run_id" ;; deleteRunFromPlanEntry (prop args "run_id")
  | get_milestones =>
      args <- reading args "project_id" ;; getMilestones (prop args "project_id")
  | get_milestone =>
      args <- reading args "milestone_id" ;; getMilestone (prop args "milestone_id")
  | add_milestone => addMilestone args
  | update_milestone => updateMilestone args
  | delete_milestone =>
      args <- reading args "milestone_id" ;; deleteMilestone (prop args "milestone_id")
  | get_user =>
      args <- reading args "user_id" ;; getUser (prop args "user_id")
  | get_current_user => getCurrentUser
  | get_user_by_email =>
      args <- reading args "email" ;; getUserByEmail (prop args "email")
  | get_users =>
      args <- reading args "project_id" ;; getUsers (prop args "project_id")
  | get_statuses => getStatuses
  | get_case_statuses => getCaseStatuses
  | get_priorities => getPriorities
  | get_templates =>
      args <- reading args "project_id" ;; getTemplates (prop args "project_id")
  | get_configs =>
      args <- reading args "project_id" ;; getConfigs (prop args "project_id")
  | get_result_fields => getResultFields
  | add_attachment_to_case => addAttachmentToCase args
  | add_attachment_to_result => addAttachmentToResult args
  | add_attachment_to_run => addAttachmentToRun args
  | add_attachment_to_plan => addAttachmentToPlan args
  | add_attachment_to_plan_entry => addAttachmentToPlanEntry args
  | get_attachment =>
      args <- reading args "attachment_id" ;; getAttachment (prop args "attachment_id")
  | get_attachments_for_case => getAttachmentsForCase args
  | get_attachments_for_test =>
      args <- reading args "test_id" ;; getAttachmentsForTest (prop args "test_id")
  | get_attachments_for_run => getAttachmentsForRun args
  | get_attachments_for_plan => getAttachmentsForPlan args
  | get_attachments_for_plan_entry => getAttachmentsForPlanEntry args
  | delete_attachment =>
      args <- reading args "attachment_id" ;; deleteAttachment (prop args "attachment_id")
  end.

(** *** The CallTool handler *)

Definition error_result (error : Exn) : CallToolResult :=
  {| content :=
       [ {| type := "text";
            text := Some ("Error: " ++ match error with
                                       | Error message => message
                                       | NotAnError => "Unknown error"
                                       end) |} ] |}.

(** The body of the [try]: the [switch] with its [default]. *)
Definition switch (name : string) (args : Args) : M CallToolResult :=
  match tool_of_name name with
  | Some t => run_case t args
  | None => throw (Error ("Unknown tool: " ++ name))
  end.

Definition CallTool (name : string) (args : Args) : M CallToolResult :=
  try_catch (switch name args) (fun error => ret (error_result error)).

End TestRailMCP.

(** * Reading a result and a request

    Observations on what the handler returns and on what it sends; the
    statements below are phrased with them. *)

Import TestRailMCP.

Fixpoint strip_prefix (p s : string) : option string :=
  match p, s with
  | EmptyString, _ => Some s
  | String a p', String b s' => if Ascii.eqb a b then strip_prefix p' s' else None
  | String _ _, EmptyString => None
  end.

(** The message of a failure envelope: the text after [Error: ], for a
    result whose single text item starts that way.  It is how a reader of
    the envelope tells a failure from a success. *)
Definition failure_message (r : CallToolResult) : option string :=
  match content r with
  | [ {| type := _; text := Some t |} ] => strip_prefix "Error: " t
  | _ => None
  end.

Definition success (r : CallToolResult) : bool :=
  match failure_message r with
  | Some _ => false
  | None => true
  end.

(** [contains sub s]: [sub] occurs in [s]. *)
Fixpoint contains (sub s : string) : bool :=
  match strip_prefix sub s with
  | Some _ => true
  | None =>
      match s with
      | EmptyString => false
      | String _ s' => contains sub s'
      end
  end.

Fixpoint string_drop (n : nat) (s : string) : string :=
  match n, s with
  | O, _ => s
  | S n', String _ s' => string_drop n' s'
  | S _, EmptyString => EmptyString
  end.

(** The operation path of a request: its URL without the session's
    [<base>/index.php?/api/v2/]. *)
Definition endpoint_of (session : UserSession) (r : Request) : string :=
  string_drop (String.length (api_url session "")) (url r).

(** The JSON body as it reaches the wire: the value of field [p], if the
    body is an object that carries it. *)
Definition sent_field (o : Object) (p : string) : option JsValue :=
  match find (fun kv => String.eqb (fst kv) p) (wire_fields o) with
  | Some kv => Some (snd kv)
  | None => None
  end.

Definition body_field (r : Request) (p : string) : option JsValue :=
  match data r with
  | JsonData (JObj o) => sent_field o p
  | _ => None
  end.

(** The query filters appended to an operation path.  The path runs to
    the first separator ([&] or [?]); after it every separator starts an
    entry, whose key is the text before its [=]. *)
Definition is_separator (c : ascii) : bool :=
  Ascii.eqb c "&"%char || Ascii.eqb c "?"%char.

Inductive Scan :=
| InPath
| InKey (k : string)
| InValue.

Fixpoint query_scan (st : Scan) (s : string) : list string :=
  match s with
  | EmptyString =>
      match st with
      | InKey k => [k]
      | _ => []
      end
  | String c r =>
      if is_separator c then
        match st with
        | InKey k => k :: query_scan (InKey "") r
        | _ => query_scan (InKey "") r
        end
      else
        match st with
        | InPath => query_scan InPath r
        | InKey k =>
            if Ascii.eqb c "="%char then k :: query_scan InValue r
            else query_scan (InKey (k ++ String c "")) r
        | InValue => query_scan InValue r
        end
  end.

Definition query_keys (endpoint : string) : list string :=
  query_scan InPath endpoint.

Definition has_query_key (p endpoint : string) : bool :=
  existsb (String.eqb p) (query_keys endpoint).

(** The separator in front of the first appended filter, if there is a
    filter. *)
Fixpoint first_separator (endpoint : string) : option ascii :=
  match endpoint with
  | EmptyString => None
  | String c r => if is_separator c then Some c else first_separator r
  end.

Fixpoint no_separator (s : string) : bool :=
  match s with
  | EmptyString => true
  | String c r => negb (is_separator c) && no_separator r
  end.

(** No supplied value spells a query separator of its own. *)
Definition plain_values (args : Object) : bool :=
  forallb (fun kv => no_separator (toString (snd kv))) args.

(** * Tables read off the registry *)

(** The registry entry of a tool. *)
Definition spec_of (t : Tool) : option ToolSpec :=
  find (fun s => String.eqb (name s) (tool_name t)) tools.

Definition declared_params (t : Tool) : list string :=
  match spec_of t with
  | Some s => map fst (properties s)
  | None => []
  end.

Definition required_params (t : Tool) : list string :=
  match spec_of t with
  | Some s => required s
  | None => []
  end.

Definition mem (p : string) (l : list string) : bool :=
  existsb (String.eqb p) l.

Definition optional_params (t : Tool) : list string :=
  filter (fun p => negb (mem p (required_params t))) (declared_params t).

(** The five tools that upload a file. *)
Definition is_upload (t : Tool) : bool :=
  match t with
  | add_attachment_to_case | add_attachment_to_result | add_attachment_to_run
  | add_attachment_to_plan | add_attachment_to_plan_entry => true
  | _ => false
  end.

(** A world for examples: credentials in the environment, an empty
    session map, one readable file, and a remote service that answers
    every request with the same JSON value. *)
Definition example_file : Buffer := Buffer_from "PNG-bytes".

Definition example_response : Response :=
  {| response_data := JObj [("id", JNum 1)];
     response_bytes := Buffer_from "raw";
     response_content_type := JStr "image/png" |}.

Definition example_world : World :=
  {| env_TESTRAIL_URL := Some "https://example.testrail.io";
     env_TESTRAIL_USERNAME := Some "user@example.com";
     env_TESTRAIL_API_KEY := Some "key";
     userSessions := [];
     fs_read_path := fun p =>
       if String.eqb p "/tmp/shot.png" then Returned example_file
       else Thrown (Error ("ENOENT: no such file or directory, open '" ++ p ++ "'"));
     fs_read_fd := fun _ => Thrown (Error "EBADF: bad file descriptor, read");
     random_base36 := "k3x9q0z1a2b";
     axios_result := fun _ => Returned example_response |}.

Definition example_session : UserSession :=
  {| testrailUrl := "https://example.testrail.io";
     username := "user@example.com";
     apiKey := "key";
     sessionId := "env-session" |}.

Definition stored_session : UserSession :=
  {| testrailUrl := "https://stored.testrail.io";
     username := "stored@example.com";
     apiKey := "stored-key";
     sessionId := "s1" |}.

(** The same world without credentials anywhere. *)
Definition anonymous_world : World :=
  {| env_TESTRAIL_URL := None;
     env_TESTRAIL_USERNAME := None;
     env_TESTRAIL_API_KEY := None;
     userSessions := [];
     fs_read_path := fs_read_path example_world;
     fs_read_fd := fs_read_fd example_world;
     random_base36 := random_base36 example_world;
     axios_result := axios_result example_world |}.

(** What the [catch] of the handler makes of the outcome of its [try]
    body. *)
Definition settle (o : Outcome CallToolResult) : CallToolResult :=
  match o with
  | Returned r => r
  | Thrown e => error_result e
  end.

(** Credentials in the environment and a session in the map as well. *)
Definition both_world : World :=
  {| env_TESTRAIL_URL := env_TESTRAIL_URL example_world;
     env_TESTRAIL_USERNAME := env_TESTRAIL_USERNAME example_world;
     env_TESTRAIL_API_KEY := env_TESTRAIL_API_KEY example_world;
     userSessions := [("s1", stored_session)];
     fs_read_path := fs_read_path example_world;
     fs_read_fd := fs_read_fd example_world;
     random_base36 := random_base36 example_world;
     axios_result := axios_result example_world |}.

(** [TESTRAIL_URL=] : the variable is set, to the empty string. *)
Definition blank_url_world : World :=
  {| env_TESTRAIL_URL := Some "";
     env_TESTRAIL_USERNAME := env_TESTRAIL_USERNAME example_world;
     env_TESTRAIL_API_KEY := env_TESTRAIL_API_KEY example_world;
     userSessions := [("s1", stored_session)];
     fs_read_path := fs_read_path example_world;
     fs_read_fd := fs_read_fd example_world;
     random_base36 := random_base36 example_world;
     axios_result := axios_result example_world |}.

(** The session built from the three environment variables. *)
Definition env_session (u n k : string) : UserSession :=
  {| testrailUrl := u; username := n; apiKey := k; sessionId := "env-session" |}.

(** [filePath] is a string that names a file [fs.readFileSync] can read. *)
Definition readable_file (w : World) (filePath : JsValue) : bool :=
  match filePath with
  | JStr p =>
      match fs_read_path w p with
      | Returned _ => true
      | Thrown _ => false
      end
  | _ => false
  end.

(** The text of the locally built answer of the single-target deletes. *)
Definition delete_message (t : Tool) : option string :=
  match t with
  | delete_section => Some "Section deleted"
  | delete_case => Some "Case deleted"
  | delete_run => Some "Run deleted"
  | delete_plan => Some "Plan deleted"
  | delete_plan_entry => Some "Plan entry deleted"
  | delete_run_from_plan_entry => Some "Run removed from plan entry"
  | delete_milestone => Some "Milestone deleted"
  | delete_attachment => Some "Attachment deleted"
  | _ => None
  end.

(** What a tool answers with once its call has succeeded with [resp]. *)
Definition success_payload (t : Tool) (o : Object) (resp : Response) : JsValue :=
  match delete_message t with
  | Some msg => JObj [("success", JBool true); ("message", JStr msg)]
  | None =>
      match t with
      | get_attachment =>
          JObj [("message", JStr "Attachment retrieved successfully");
                ("attachment_id", prop o "attachment_id");
                ("size", JNum (Z.of_nat (List.length (response_bytes resp))));
                ("content_type", response_content_type resp)]
      | _ => response_data resp
      end
  end.

(** ** Multipart bodies

    The [multipart/form-data] layout (RFC 7578) of a list of file parts:
    each part is introduced by the dash-boundary line, carries its
    disposition and type headers, an empty line and its content; the
    close delimiter follows the last part.  It is the yardstick for the
    body that [makeMultipartRequest] assembles by hand. *)

Record Part := {
  part_name : string;
  part_filename : string;
  part_type : string;
  part_content : Buffer
}.

Definition encode_part (boundary : string) (p : Part) : Buffer :=
  (Buffer_from ("--" ++ boundary ++ CRLF)
   ++ Buffer_from ("Content-Disposition: form-data; name=" ++ dquote
                   ++ part_name p ++ dquote ++ "; filename=" ++ dquote
                   ++ part_filename p ++ dquote ++ CRLF)
   ++ Buffer_from ("Content-Type: " ++ part_type p ++ CRLF)
   ++ Buffer_from CRLF
   ++ part_content p
   ++ Buffer_from CRLF)%list.

Definition encode_multipart (boundary : string) (parts : list Part) : Buffer :=
  (List.concat (map (encode_part boundary) parts)
   ++ Buffer_from ("--" ++ boundary ++ "--" ++ CRLF))%list.

(** The positional identifiers an upload puts after its verb. *)
Definition upload_target (t : Tool) (o : Object) : string :=
  match t with
  | add_attachment_to_case => toString (prop o "case_id")
  | add_attachment_to_result => toString (prop o "result_id")
  | add_attachment_to_run => toString (prop o "run_id")
  | add_attachment_to_plan => toString (prop o "plan_id")
  | add_attachment_to_plan_entry =>
      toString (prop o "plan_id") ++ "/" ++ toString (prop o "entry_id")
  | _ => ""
  end.

(** ** Optional fields and the empty string

    The optional fields that a tool copies into its body without a
    truthiness test (unconditionally, or under [!== undefined]), so that
    an empty string passes. *)
Definition forwarded_when_empty (t : Tool) : list string :=
  match t with
  | add_suite => ["description"]
  | update_suite => ["description"]
  | update_section => ["description"]
  | move_section => ["parent_id"; "after_id"]
  | add_case =>
      ["template_id"; "type_id"; "priority_id"; "estimate"; "milestone_id";
       "refs"; "custom_preconds"; "custom_steps"; "custom_expected";
       "custom_autostat"; "custom_steps_separated"]
  | update_case =>
      ["title"; "template_id"; "type_id"; "priority_id"; "estimate"; "refs";
       "custom_preconds"; "custom_steps"; "custom_expected";
       "custom_steps_separated"]
  | add_run => ["include_all"]
  | update_run => ["description"; "milestone_id"]
  | add_plan_entry => ["include_all"]
  | add_run_to_plan_entry => ["include_all"]
  | update_plan => ["description"; "milestone_id"]
  | update_plan_entry => ["description"; "assignedto_id"; "include_all"; "refs"]
  | update_run_in_plan_entry =>
      ["description"; "assignedto_id"; "include_all"; "refs"]
  | update_milestone =>
      ["description"; "due_on"; "is_completed"; "is_started"; "parent_id";
       "start_on"]
  | _ => []
  end.

(** The text after a path segment: nothing, or what starts the next
    segment or the first filter. *)
Definition ends_segment (rest : string) : bool :=
  match rest with
  | EmptyString => true
  | String c _ =>
      Ascii.eqb c "/"%char || is_separator c
  end.

(** * Further observations on requests and tools *)

(** The value of a request header. *)
Definition header (r : Request) (k : string) : option string :=
  match find (fun h => String.eqb (fst h) k) (headers r) with
  | Some h => Some (snd h)
  | None => None
  end.

Definition starts_with (p s : string) : bool :=
  match strip_prefix p s with
  | Some _ => true
  | None => false
  end.

(** The tools whose name says they read: [get_...]. *)
Definition is_read (t : Tool) : bool := starts_with "get_" (tool_name t).

(** No string occurs twice. *)
Fixpoint distinct (l : list string) : bool :=
  match l with
  | [] => true
  | x :: r => negb (mem x r) && distinct r
  end.

(** How the value [v] of parameter [p] shows in a request: as the body
    field [p], as the query entry [p=v], as a path segment [/v], as the
    escaped [email] entry, or (for an upload's [file_path]) as the file
    sent in the body. *)
Definition reaches (s : UserSession) (req : Request) (p : string) (v : JsValue)
    : Prop :=
  body_field req p = Some v
  \/ contains (p ++ "=" ++ toString v) (endpoint_of s req) = true
  \/ contains ("/" ++ toString v) (endpoint_of s req) = true
  \/ (p = "email"
      /\ contains ("email=" ++ encodeURIComponent v) (endpoint_of s req) = true)
  \/ (p = "file_path" /\ exists body, data req = BufferData body).

Fixpoint no_slash (s : string) : bool :=
  match s with
  | EmptyString => true
  | String c r => negb (is_slash c) && no_slash r
  end.

(** The example world with a remote service that answers every request
    with status 500. *)
Definition failing_world : World :=
  {| env_TESTRAIL_URL := env_TESTRAIL_URL example_world;
     env_TESTRAIL_USERNAME := env_TESTRAIL_USERNAME example_world;
     env_TESTRAIL_API_KEY := env_TESTRAIL_API_KEY example_world;
     userSessions := [];
     fs_read_path := fs_read_path example_world;
     fs_read_fd := fs_read_fd example_world;
     random_base36 := random_base36 example_world;
     axios_result := fun _ => Thrown (Error "Request failed with status code 500") |}.

(** The example world with another file system and another random draw. *)
Definition other_disk_world : World :=
  {| env_TESTRAIL_URL := env_TESTRAIL_URL example_world;
     env_TESTRAIL_USERNAME := env_TESTRAIL_USERNAME example_world;
     env_TESTRAIL_API_KEY := env_TESTRAIL_API_KEY example_world;
     userSessions := [];
     fs_read_path := fun _ => Returned [];
     fs_read_fd := fun _ => Returned [];
     random_base36 := "zzz";
     axios_result := axios_result example_world |}.

(** * Running the monad *)

Lemma bind_ret {A B} (a : A) (k : A -> M B) (w : World) :
  bind (ret a) k w = k a w.
Proof.
  unfold bind, ret. destruct (k a w) as [r l]. reflexivity.
Qed.

Lemma bind_throw {A B} (e : Exn) (k : A -> M B) (w : World) :
  bind (throw e) k w = (Thrown e, []).
Proof. reflexivity. Qed.

Lemma bind_ask {B} (k : World -> M B) (w : World) :
  bind ask k w = k w w.
Proof.
  unfold bind, ask. destruct (k w w) as [r l]. reflexivity.
Qed.

Lemma bind_reading {B} (o : Object) (p : string) (k : Object -> M B) (w : World) :
  bind (reading (Some o) p) k w = k o w.
Proof. apply bind_ret. Qed.

Lemma CallTool_run (name : string) (args : Args) (w : World) :
  CallTool name args w
  = (Returned (settle (result (switch name args w))), sent (switch name args w)).
Proof.
  unfold CallTool, try_catch, result, sent.
  destruct (switch name args w) as [[r | e] l]; cbn.
  - reflexivity.
  - rewrite app_nil_r. reflexivity.
Qed.

Lemma tool_of_name_tool_name (t : Tool) : tool_of_name (tool_name t) = Some t.
Proof. destruct t; reflexivity. Qed.

Lemma switch_tool (t : Tool) (args : Args) :
  switch (tool_name t) args = run_case t args.
Proof. unfold switch. rewrite tool_of_name_tool_name. reflexivity. Qed.

Lemma registry_names : map name tools = map tool_name all_tools.
Proof. reflexivity. Qed.

Lemma find_tool_none (l : list Tool) (n : string) :
  ~ In n (map tool_name l) ->
  find (fun t => String.eqb (tool_name t) n) l = None.
Proof.
  induction l as [| t l IH]; intros Hn; cbn.
  - reflexivity.
  - destruct (String.eqb_spec (tool_name t) n) as [E | E].
    + exfalso. apply Hn. left. exact E.
    + apply IH. intros Hin. apply Hn. right. exact Hin.
Qed.

Lemma tool_of_name_unregistered (n : string) :
  ~ In n (map name tools) -> tool_of_name n = None.
Proof.
  rewrite registry_names. apply find_tool_none.
Qed.

Lemma tool_of_name_registered (n : string) (t : Tool) :
  tool_of_name n = Some t -> In n (map name tools).
Proof.
  unfold tool_of_name. intros H.
  apply find_some in H. destruct H as [Hin Heq].
  apply String.eqb_eq in Heq. subst n.
  rewrite registry_names. apply in_map. exact Hin.
Qed.

(** * Transports *)

Lemma makeRequest_absent {B} (endpoint : string) (m : Method) (d : JsValue)
    (k : JsValue -> M B) (w : World) :
  getCurrentUserSession w = None ->
  bind (makeRequest endpoint m d) k w = (Thrown not_authenticated, []).
Proof.
  intros H. unfold makeRequest, bind, ask. cbn. rewrite H. reflexivity.
Qed.

Lemma makeMultipartRequest_absent {B} (endpoint : string) (f : JsValue)
    (k : JsValue -> M B) (w : World) :
  getCurrentUserSession w = None ->
  bind (makeMultipartRequest endpoint f) k w = (Thrown not_authenticated, []).
Proof.
  intros H. unfold makeMultipartRequest, bind, ask. cbn. rewrite H. reflexivity.
Qed.

Lemma getAttachment_absent (a : JsValue) (w : World) :
  getCurrentUserSession w = None ->
  getAttachment a w = (Thrown not_authenticated, []).
Proof.
  intros H. unfold getAttachment, bind, ask. cbn. rewrite H. reflexivity.
Qed.

(** With a session, [makeRequest] hands exactly one request to [axios]
    and continues with the decoded body, or throws what [axios] threw. *)
Lemma makeRequest_present {B} (endpoint : string) (m : Method) (d : JsValue)
    (k : JsValue -> M B) (w : World) (s : UserSession) :
  getCurrentUserSession w = Some s ->
  bind (makeRequest endpoint m d) k w
  = match axios_result w (json_request s endpoint m d) with
    | Returned r =>
        (result (k (response_data r) w),
         json_request s endpoint m d :: sent (k (response_data r) w))
    | Thrown e => (Thrown e, [json_request s endpoint m d])
    end.
Proof.
  intros H. unfold makeRequest, bind, ask, axios, result, sent. cbn. rewrite H. cbn.
  destruct (axios_result w (json_request s endpoint m d)) as [r | e]; cbn.
  - destruct (k (response_data r) w) as [o l]. reflexivity.
  - reflexivity.
Qed.

Lemma getAttachment_present (a : JsValue) (w : World) (s : UserSession) :
  getCurrentUserSession w = Some s ->
  getAttachment a w
  = match axios_result w (attachment_request s a) with
    | Returned r =>
        (Returned
           (formatResponse
              (JObj [("message", JStr "Attachment retrieved successfully");
                     ("attachment_id", a);
                     ("size", JNum (Z.of_nat (List.length (response_bytes r))));
                     ("content_type", response_content_type r)])),
         [attachment_request s a])
    | Thrown e => (Thrown e, [attachment_request s a])
    end.
Proof.
  intros H. unfold getAttachment, bind, ask, axios. cbn. rewrite H. cbn.
  destruct (axios_result w (attachment_request s a)) as [r | e]; reflexivity.
Qed.

(** Reduce [run_case t (Some o) w] to the transport call of the tool. *)
Ltac enter_case :=
  cbn [run_case];
  try rewrite bind_reading;
  cbv beta delta
    [getProjects getProject getSuites getSuite addSuite updateSuite getSections
     getSection addSection updateSection deleteSection moveSection getCases
     getCase addCase updateCase deleteCase getCaseTypes getCaseFields
     getHistoryForCase copyCasesToSection moveCasesToSection deleteCases getRuns
     getRun addRun updateRun closeRun deleteRun getTests getTest getResults
     getResultsForCase getResultsForRun addResult addResultForCase
     addResultsForCases addResults getPlans getPlan addPlan addPlanEntry
     addRunToPlanEntry updatePlan updatePlanEntry updateRunInPlanEntry closePlan
     deletePlan deletePlanEntry deleteRunFromPlanEntry getMilestones getMilestone
     addMilestone updateMilestone deleteMilestone getUser getCurrentUser
     getUserByEmail getUsers getStatuses getCaseStatuses getPriorities
     getTemplates getConfigs getResultFields addAttachmentToCase
     addAttachmentToResult addAttachmentToRun addAttachmentToPlan
     addAttachmentToPlanEntry getAttachmentsForCase getAttachmentsForTest
     getAttachmentsForRun getAttachmentsForPlan getAttachmentsForPlanEntry
     deleteAttachment];
  try rewrite bind_reading;
  cbv zeta.

(** * Session resolution *)

Lemma session_absent_iff (w : World) :
  getCurrentUserSession w = None
  <-> (env_truthy (env_TESTRAIL_URL w) && env_truthy (env_TESTRAIL_USERNAME w)
       && env_truthy (env_TESTRAIL_API_KEY w) = false)
      /\ userSessions w = [].
Proof.
  unfold getCurrentUserSession.
  destruct (env_truthy (env_TESTRAIL_URL w) && env_truthy (env_TESTRAIL_USERNAME w)
            && env_truthy (env_TESTRAIL_API_KEY w)).
  - split; [discriminate | intros [H _]; discriminate].
  - destruct (userSessions w) as [| [k s] l]; cbn.
    + split; auto.
    + split; [discriminate | intros [_ H]; discriminate].
Qed.

(** * Unknown tools *)

(** C4.  A call whose name is not in the registry returns (never throws)
    the envelope of the [catch] branch: one text item reading
    [Error: Unknown tool: <name>], which is a failure to every reader of
    the envelope, names the tool, and was produced without sending any
    request.  This holds for every argument value, absent arguments
    included, and in every world. *)
Theorem unknown_tool_rejected (w : World) (n : string) (args : Args) :
  ~ In n (map name tools) ->
  exists r : CallToolResult,
    CallTool n args w = (Returned r, [])
    /\ r = {| content := [ {| type := "text";
                              text := Some ("Error: Unknown tool: " ++ n) |} ] |}
    /\ success r = false
    /\ failure_message r = Some ("Unknown tool: " ++ n)
    /\ (forall m, failure_message r = Some m ->
                  contains "Unknown tool" m = true /\ contains n m = true).
Proof.
  intros Hn. eexists. split; [| split; [reflexivity |]].
  - rewrite CallTool_run. unfold switch.
    rewrite (tool_of_name_unregistered n Hn). reflexivity.
  - split; [reflexivity |]. split; [reflexivity |].
    intros m Hm. cbn in Hm. injection Hm as <-. split; [reflexivity |].
    clear Hn.
    assert (G : forall a b, contains b (a ++ b) = true).
    { intros a b. induction a as [| c a IH]; cbn.
      - destruct b; cbn.
        + reflexivity.
        + rewrite Ascii.eqb_refl.
          assert (P : forall x, strip_prefix x x = Some "").
          { induction x as [| d x IHx]; cbn; [reflexivity |].
            rewrite Ascii.eqb_refl. exact IHx. }
          rewrite P. reflexivity.
      - destruct (strip_prefix b (String c (a ++ b))); [reflexivity | exact IH]. }
    apply (G "Unknown tool: " n).
Qed.

Lemma unknown_tool_rejected_witness :
  exists r : CallToolResult,
    CallTool "get_nonexistent" (Some []) example_world = (Returned r, [])
    /\ r = {| content :=
                [ {| type := "text";
                     text := Some ("Error: Unknown tool: " ++ "get_nonexistent") |} ] |}
    /\ success r = false
    /\ failure_message r = Some ("Unknown tool: " ++ "get_nonexistent")
    /\ (forall m, failure_message r = Some m ->
                  contains "Unknown tool" m = true
                  /\ contains "get_nonexistent" m = true).
Proof.
  apply (unknown_tool_rejected example_world "get_nonexistent" (Some [])).
  cbn. intuition discriminate.
Defined.

(** * No session *)

Lemma run_case_absent (t : Tool) (o : Object) (w : World) :
  getCurrentUserSession w = None ->
  run_case t (Some o) w = (Thrown not_authenticated, []).
Proof.
  intros H.
  destruct t; enter_case;
    first [ apply makeRequest_absent; exact H
          | apply makeMultipartRequest_absent; exact H
          | apply getAttachment_absent; exact H ].
Qed.



(** C8, as amended.  A variable counts when it holds a non-empty string.
    With all three non-empty the session is built from the environment,
    whatever the session map holds; as soon as one of them is unset or
    empty the first entry of the map is taken, and with an empty map
    there is no session. *)
Theorem session_precedence (w : World) :
  (forall u n k,
      env_TESTRAIL_URL w = Some u -> env_TESTRAIL_USERNAME w = Some n ->
      env_TESTRAIL_API_KEY w = Some k ->
      u <> "" -> n <> "" -> k <> "" ->
      getCurrentUserSession w = Some (env_session u n k))
  /\ ((env_TESTRAIL_URL w = None \/ env_TESTRAIL_URL w = Some ""
       \/ env_TESTRAIL_USERNAME w = None \/ env_TESTRAIL_USERNAME w = Some ""
       \/ env_TESTRAIL_API_KEY w = None \/ env_TESTRAIL_API_KEY w = Some "") ->
      getCurrentUserSession w = hd_error (map snd (userSessions w))).
Proof.
  split.
  - intros u n k Hu Hn Hk Nu Nn Nk. unfold getCurrentUserSession.
    rewrite Hu, Hn, Hk. cbn.
    apply String.eqb_neq in Nu, Nn, Nk. rewrite Nu, Nn, Nk. reflexivity.
  - intros H. unfold getCurrentUserSession.
    assert (E : env_truthy (env_TESTRAIL_URL w)
                && env_truthy (env_TESTRAIL_USERNAME w)
                && env_truthy (env_TESTRAIL_API_KEY w) = false).
    { destruct H as [H | [H | [H | [H | [H | H]]]]]; rewrite H; cbn;
        rewrite ?andb_false_r; reflexivity. }
    rewrite E. destruct (map snd (userSessions w)); reflexivity.
Qed.

Lemma session_precedence_witness :
  getCurrentUserSession both_world
  = Some (env_session "https://example.testrail.io" "user@example.com" "key")
  /\ getCurrentUserSession blank_url_world = Some stored_session
  /\ getCurrentUserSession anonymous_world = None.
Proof.
  split; [| split].
  - apply (proj1 (session_precedence both_world)
             "https://example.testrail.io" "user@example.com" "key");
      (reflexivity || discriminate).
  - apply (proj2 (session_precedence blank_url_world)). right. left. reflexivity.
  - apply (proj2 (session_precedence anonymous_world)). left. reflexivity.
Defined.

(** C8, as stated, fails where a variable is set to the empty string: all
    three variables are set, the map holds a session, and resolution
    returns the stored session instead of the environment's. *)
Lemma session_precedence_counterexample :
  (exists u n k,
      env_TESTRAIL_URL blank_url_world = Some u
      /\ env_TESTRAIL_USERNAME blank_url_world = Some n
      /\ env_TESTRAIL_API_KEY blank_url_world = Some k
      /\ getCurrentUserSession blank_url_world <> Some (env_session u n k))
  /\ getCurrentUserSession blank_url_world = Some stored_session.
Proof.
  split; [| reflexivity].
  exists "", "user@example.com", "key".
  repeat split. cbn. discriminate.
Qed.

(** * One request per call *)

Lemma run_case_json_sent (t : Tool) (o : Object) (w : World) (s : UserSession) :
  getCurrentUserSession w = Some s ->
  is_upload t = false ->
  List.length (sent (run_case t (Some o) w)) = 1.
Proof.
  intros H U.
  destruct t; try discriminate U; enter_case;
    first [ rewrite (makeRequest_present _ _ _ _ w s H);
            match goal with
            | |- context [axios_result w ?r] => destruct (axios_result w r)
            end; reflexivity
          | rewrite (getAttachment_present _ w s H);
            match goal with
            | |- context [axios_result w ?r] => destruct (axios_result w r)
            end; reflexivity ].
Qed.

Lemma makeMultipartRequest_sent {B} (endpoint : string) (f : JsValue)
    (k : JsValue -> M B) (w : World) (s : UserSession) :
  getCurrentUserSession w = Some s ->
  (forall x, sent (k x w) = []) ->
  List.length (sent (bind (makeMultipartRequest endpoint f) k w))
  = if readable_file w f then 1 else 0.
Proof.
  intros H K.
  unfold makeMultipartRequest, readable_file, bind, readFileSync, path_basename,
    ask, lift, throw, ret, axios, sent in *.
  rewrite H.
  destruct f; cbn; try reflexivity.
  - destruct (fs_read_fd w n); reflexivity.
  - destruct (fs_read_path w s0) as [b | e]; cbn; [| reflexivity].
    match goal with
    | |- context [axios_result w ?r] => destruct (axios_result w r) as [r' | e']
    end; cbn; [| reflexivity].
    specialize (K (response_data r')).
    destruct (k (response_data r') w) as [x l]. cbn in *. subst l. reflexivity.
Qed.

Lemma run_case_upload_sent (t : Tool) (o : Object) (w : World) (s : UserSession) :
  getCurrentUserSession w = Some s ->
  is_upload t = true ->
  List.length (sent (run_case t (Some o) w))
  = if readable_file w (prop o "file_path") then 1 else 0.
Proof.
  intros H U.
  destruct t; try discriminate U; enter_case;
    apply (makeMultipartRequest_sent _ _ _ w s H); reflexivity.
Qed.




(** * What a successful call answers *)

Lemma json_call_answer (endpoint : string) (m : Method) (d : JsValue)
    (g : JsValue -> JsValue) (w : World) (s : UserSession)
    (req : Request) (resp : Response) :
  getCurrentUserSession w = Some s ->
  In req (sent (bind (makeRequest endpoint m d)
                  (fun data => ret (formatResponse (g data))) w)) ->
  axios_result w req = Returned resp ->
  bind (makeRequest endpoint m d) (fun data => ret (formatResponse (g data))) w
  = (Returned (formatResponse (g (response_data resp))), [req]).
Proof.
  intros H Hin Hr. rewrite (makeRequest_present _ _ _ _ w s H) in *.
  destruct (axios_result w (json_request s endpoint m d)) as [r | e] eqn:E;
    cbn in Hin; destruct Hin as [<- | []].
  - rewrite E in Hr. injection Hr as ->. reflexivity.
  - rewrite E in Hr. discriminate Hr.
Qed.

Lemma multipart_call_answer (endpoint : string) (f : JsValue)
    (w : World) (s : UserSession) (req : Request) (resp : Response) :
  getCurrentUserSession w = Some s ->
  In req (sent (bind (makeMultipartRequest endpoint f)
                  (fun data => ret (formatResponse data)) w)) ->
  axios_result w req = Returned resp ->
  bind (makeMultipartRequest endpoint f) (fun data => ret (formatResponse data)) w
  = (Returned (formatResponse (response_data resp)), [req]).
Proof.
  intros H.
  unfold makeMultipartRequest, bind, readFileSync, path_basename,
    ask, lift, throw, ret, axios, sent.
  rewrite H.
  destruct f; cbn; try (intros []).
  - destruct (fs_read_fd w n); cbn; intros [].
  - destruct (fs_read_path w s0) as [b | e]; cbn; [| intros []].
    match goal with
    | |- context [axios_result w ?r] =>
        destruct (axios_result w r) as [r' | e'] eqn:E
    end; cbn; intros [<- | []] Hr; rewrite E in Hr.
    + injection Hr as ->. reflexivity.
    + discriminate Hr.
Qed.

Lemma attachment_call_answer (a : JsValue) (w : World) (s : UserSession)
    (req : Request) (resp : Response) :
  getCurrentUserSession w = Some s ->
  In req (sent (getAttachment a w)) ->
  axios_result w req = Returned resp ->
  getAttachment a w
  = (Returned
       (formatResponse
          (JObj [("message", JStr "Attachment retrieved successfully");
                 ("attachment_id", a);
                 ("size", JNum (Z.of_nat (List.length (response_bytes resp))));
                 ("content_type", response_content_type resp)])),
     [req]).
Proof.
  intros H Hin Hr. rewrite (getAttachment_present a w s H) in *.
  destruct (axios_result w (attachment_request s a)) as [r | e] eqn:E;
    cbn in Hin; destruct Hin as [<- | []]; rewrite E in Hr.
  - injection Hr as ->. reflexivity.
  - discriminate Hr.
Qed.

Lemma run_case_answer (t : Tool) (o : Object) (w : World) (s : UserSession)
    (req : Request) (resp : Response) :
  getCurrentUserSession w = Some s ->
  In req (sent (run_case t (Some o) w)) ->
  axios_result w req = Returned resp ->
  run_case t (Some o) w
  = (Returned (formatResponse (success_payload t o resp)), [req]).
Proof.
  intros H.
  destruct t; enter_case; cbn [success_payload delete_message]; intros Hin Hr;
    first
      [ exact (json_call_answer _ _ _ (fun x => x) w s req resp H Hin Hr)
      | exact (json_call_answer _ _ _ (fun _ => _) w s req resp H Hin Hr)
      | exact (multipart_call_answer _ _ w s req resp H Hin Hr)
      | exact (attachment_call_answer _ w s req resp H Hin Hr) ].
Qed.

(** C10, as amended.  When the request that a call sent was answered,
    the eight single-target deletes return the locally built object
    [{success: true, message: <their fixed text>}] whatever the answer
    was; [get_attachment] returns locally built metadata (message, id,
    byte length, declared content type); every other tool returns the
    decoded remote answer. *)
Theorem success_payloads (w : World) (s : UserSession) (t : Tool) (o : Object)
    (req : Request) (resp : Response) :
  getCurrentUserSession w = Some s ->
  In req (sent (CallTool (tool_name t) (Some o) w)) ->
  axios_result w req = Returned resp ->
  CallTool (tool_name t) (Some o) w
  = (Returned
       (formatResponse
          (match delete_message t with
           | Some msg => JObj [("success", JBool true); ("message", JStr msg)]
           | None =>
               match t with
               | get_attachment =>
                   JObj [("message", JStr "Attachment retrieved successfully");
                         ("attachment_id", prop o "attachment_id");
                         ("size",
                          JNum (Z.of_nat (List.length (response_bytes resp))));
                         ("content_type", response_content_type resp)]
               | _ => response_data resp
               end
           end)),
     [req]).
Proof.
  intros H Hin Hr. rewrite CallTool_run, switch_tool in *.
  change (sent (?a, ?b)) with b in Hin.
  rewrite (run_case_answer t o w s req resp H Hin Hr). reflexivity.
Qed.

Lemma success_payloads_witness :
  CallTool (tool_name delete_run) (Some [("run_id", JNum 7)]) example_world
  = (Returned
       (formatResponse
          (JObj [("success", JBool true); ("message", JStr "Run deleted")])),
     [json_request example_session "delete_run/7" POST JUndefined])
  /\ CallTool (tool_name get_run) (Some [("run_id", JNum 7)]) example_world
     = (Returned (formatResponse (response_data example_response)),
        [json_request example_session "get_run/7" GET JUndefined]).
Proof.
  split.
  - apply (success_payloads example_world example_session delete_run
             [("run_id", JNum 7)]
             (json_request example_session "delete_run/7" POST JUndefined)
             example_response).
    + reflexivity.
    + left. reflexivity.
    + reflexivity.
  - apply (success_payloads example_world example_session get_run
             [("run_id", JNum 7)]
             (json_request example_session "get_run/7" GET JUndefined)
             example_response).
    + reflexivity.
    + left. reflexivity.
    + reflexivity.
Defined.

(** C10, as stated, fails in its last clause: [get_attachment] is not one
    of the deletes, its call succeeded, and its answer is not the remote
    response but an object built locally. *)
Lemma success_payloads_counterexample :
  delete_message get_attachment = None
  /\ axios_result example_world
       (attachment_request example_session (JStr "a1")) = Returned example_response
  /\ CallTool "get_attachment" (Some [("attachment_id", JStr "a1")]) example_world
     = (Returned
          (formatResponse
             (JObj [("message", JStr "Attachment retrieved successfully");
                    ("attachment_id", JStr "a1");
                    ("size", JNum 3);
                    ("content_type", JStr "image/png")])),
        [attachment_request example_session (JStr "a1")])
  /\ result (CallTool "get_attachment" (Some [("attachment_id", JStr "a1")])
               example_world)
     <> Returned (formatResponse (response_data example_response)).
Proof.
  split; [reflexivity |]. split; [reflexivity |]. split; [reflexivity |].
  cbn. discriminate.
Qed.

(** * add_case *)

(** C7.  [add_case] called with exactly [section_id = 10] and
    [title = "Login works"] sends one POST whose operation path is
    [add_case/10] and whose body is the object with the single field
    [title]. *)
Theorem add_case_round_trip (w : World) (s : UserSession) (o : Object) :
  getCurrentUserSession w = Some s ->
  prop o "section_id" = JNum 10 ->
  prop o "title" = JStr "Login works" ->
  (forall k, k <> "section_id" -> k <> "title" -> prop o k = JUndefined) ->
  exists req,
    sent (CallTool "add_case" (Some o) w) = [req]
    /\ method req = POST
    /\ url req = testrailUrl s ++ "/index.php?/api/v2/add_case/10"
    /\ endpoint_of s req = "add_case/10"
    /\ data req = JsonData (JObj [("title", JStr "Login works")]).
Proof.
  intros H Hs Ht Hrest.
  exists (json_request s "add_case/10" POST (JObj [("title", JStr "Login works")])).
  split.
  - rewrite CallTool_run. change "add_case" with (tool_name add_case).
    rewrite switch_tool. change (sent (?a, ?b)) with b.
    enter_case. unfold copy_if_defined.
    rewrite Hs, Ht.
    rewrite !Hrest by discriminate.
    rewrite (makeRequest_present _ _ _ _ w s H). cbn.
    match goal with
    | |- context [axios_result w ?r] => destruct (axios_result w r)
    end; reflexivity.
  - split; [reflexivity |]. split; [reflexivity |]. split; [| reflexivity].
    unfold endpoint_of, json_request, api_url. cbn [url].
    generalize (testrailUrl s). intros b.
    induction b as [| c b IH]; cbn; [reflexivity | exact IH].
Qed.

Lemma add_case_round_trip_witness :
  exists req,
    sent (CallTool "add_case"
            (Some [("section_id", JNum 10); ("title", JStr "Login works")])
            example_world) = [req]
    /\ method req = POST
    /\ url req = testrailUrl example_session ++ "/index.php?/api/v2/add_case/10"
    /\ endpoint_of example_session req = "add_case/10"
    /\ data req = JsonData (JObj [("title", JStr "Login works")]).
Proof.
  apply (add_case_round_trip example_world example_session
           [("section_id", JNum 10); ("title", JStr "Login works")]).
  - reflexivity.
  - reflexivity.
  - reflexivity.
  - intros k H1 H2. cbn [prop].
    destruct (String.eqb_spec "section_id" k) as [E | _]; [congruence |].
    destruct (String.eqb_spec "title" k) as [E | _]; [congruence |].
    reflexivity.
Defined.

(** * Requests and their operation paths *)

Lemma string_drop_app (a b : string) :
  string_drop (String.length a) (a ++ b) = b.
Proof. induction a as [| c a IH]; cbn; [reflexivity | exact IH]. Qed.

Lemma string_app_assoc (a b c : string) : (a ++ b) ++ c = a ++ (b ++ c).
Proof. induction a as [| x a IH]; cbn; [reflexivity | rewrite IH; reflexivity]. Qed.

Lemma string_app_nil_r (a : string) : a ++ "" = a.
Proof. induction a as [| x a IH]; cbn; [reflexivity | rewrite IH; reflexivity]. Qed.

Lemma endpoint_of_api_url (s : UserSession) (r : Request) (endpoint : string) :
  url r = api_url s endpoint -> endpoint_of s r = endpoint.
Proof.
  intros E. unfold endpoint_of. rewrite E. unfold api_url.
  rewrite <- !string_app_assoc. rewrite string_app_nil_r.
  apply string_drop_app.
Qed.

Lemma Buffer_from_app (a b : string) :
  Buffer_from (a ++ b) = (Buffer_from a ++ Buffer_from b)%list.
Proof.
  unfold Buffer_from, list_byte_of_string.
  induction a as [| c a IH]; cbn; [reflexivity |].
  rewrite IH. reflexivity.
Qed.

(** The hand-assembled body is the encoding of a single part. *)
Lemma multipart_body_single (boundary fileName : string) (fileBuffer : Buffer) :
  multipart_body boundary fileName fileBuffer
  = encode_multipart boundary
      [ {| part_name := "attachment";
           part_filename := fileName;
           part_type := "application/octet-stream";
           part_content := fileBuffer |} ].
Proof.
  unfold multipart_body, encode_multipart, encode_part, Buffer_concat.
  cbn [map List.concat part_name part_filename part_type part_content].
  rewrite !app_nil_r, <- !app_assoc.
  rewrite (Buffer_from_app CRLF ("--" ++ boundary ++ "--" ++ CRLF)).
  reflexivity.
Qed.

Lemma makeMultipartRequest_readable {B} (endpoint p : string) (bytes : Buffer)
    (k : JsValue -> M B) (w : World) (s : UserSession) :
  getCurrentUserSession w = Some s ->
  fs_read_path w p = Returned bytes ->
  (forall x, sent (k x w) = []) ->
  sent (bind (makeMultipartRequest endpoint (JStr p)) k w)
  = [ multipart_request s endpoint ("----FormBoundary" ++ random_base36 w)
        (multipart_body ("----FormBoundary" ++ random_base36 w) (basename p) bytes) ].
Proof.
  intros H F K.
  unfold makeMultipartRequest, bind, readFileSync, path_basename,
    ask, lift, throw, ret, axios, sent in *.
  rewrite H. cbn. rewrite F. cbn.
  match goal with
  | |- context [axios_result w ?r] => destruct (axios_result w r) as [r' | e']
  end; cbn; [| reflexivity].
  specialize (K (response_data r')).
  destruct (k (response_data r') w) as [x l]. cbn in *. subst l. reflexivity.
Qed.

(** * Attachment upload *)



(** * Filter separators *)

(** C6 against the code.  The same two arguments make
    [get_attachments_for_case] append its first filter after [&] and
    [get_attachments_for_run] append it after [?]. *)
Theorem first_filter_separator_differs :
  exists r1 r2,
    sent (CallTool "get_attachments_for_case"
            (Some [("case_id", JNum 1); ("limit", JNum 5)]) example_world) = [r1]
    /\ endpoint_of example_session r1 = "get_attachments_for_case/1&limit=5"
    /\ first_separator (endpoint_of example_session r1) = Some "&"%char
    /\ sent (CallTool "get_attachments_for_run"
               (Some [("run_id", JNum 1); ("limit", JNum 5)]) example_world) = [r2]
    /\ endpoint_of example_session r2 = "get_attachments_for_run/1?limit=5"
    /\ first_separator (endpoint_of example_session r2) = Some "?"%char.
Proof.
  do 2 eexists. repeat split; reflexivity.
Qed.

(** * The request a call sends *)

Lemma json_sent_inv {B} (endpoint : string) (m : Method) (d : JsValue)
    (k : JsValue -> M B) (w : World) (s : UserSession) (req : Request) :
  getCurrentUserSession w = Some s ->
  (forall x, sent (k x w) = []) ->
  In req (sent (bind (makeRequest endpoint m d) k w)) ->
  req = json_request s endpoint m d.
Proof.
  intros H K. rewrite (makeRequest_present _ _ _ _ w s H).
  destruct (axios_result w (json_request s endpoint m d)) as [r | e]; cbn.
  - rewrite K. intros [E | []]. symmetry. exact E.
  - intros [E | []]. symmetry. exact E.
Qed.

Lemma multipart_sent_inv {B} (endpoint : string) (f : JsValue)
    (k : JsValue -> M B) (w : World) (s : UserSession) (req : Request) :
  getCurrentUserSession w = Some s ->
  (forall x, sent (k x w) = []) ->
  In req (sent (bind (makeMultipartRequest endpoint f) k w)) ->
  exists boundary body, req = multipart_request s endpoint boundary body.
Proof.
  intros H K.
  unfold makeMultipartRequest, bind, readFileSync, path_basename,
    ask, lift, throw, ret, axios, sent in *.
  rewrite H.
  destruct f; cbn; try (intros []).
  - destruct (fs_read_fd w n); cbn; intros [].
  - destruct (fs_read_path w s0) as [b | e]; cbn; [| intros []].
    match goal with
    | |- context [axios_result w ?r] => destruct (axios_result w r) as [r' | e']
    end; cbn.
    + specialize (K (response_data r')).
      destruct (k (response_data r') w) as [x l]. cbn in *. subst l.
      intros [E | []]. do 2 eexists. symmetry. exact E.
    + intros [E | []]. do 2 eexists. symmetry. exact E.
Qed.

Lemma attachment_sent_inv (a : JsValue) (w : World) (s : UserSession)
    (req : Request) :
  getCurrentUserSession w = Some s ->
  In req (sent (getAttachment a w)) ->
  req = attachment_request s a.
Proof.
  intros H. rewrite (getAttachment_present a w s H).
  destruct (axios_result w (attachment_request s a)); cbn;
    intros [E | []]; symmetry; exact E.
Qed.

Lemma endpoint_of_json (s : UserSession) (endpoint : string) (m : Method)
    (d : JsValue) :
  endpoint_of s (json_request s endpoint m d) = endpoint.
Proof. apply endpoint_of_api_url. reflexivity. Qed.

Lemma endpoint_of_multipart (s : UserSession) (endpoint b : string) (body : Buffer) :
  endpoint_of s (multipart_request s endpoint b body) = endpoint.
Proof. apply endpoint_of_api_url. reflexivity. Qed.

Lemma endpoint_of_attachment (s : UserSession) (a : JsValue) :
  endpoint_of s (attachment_request s a) = "get_attachment/" ++ toString a.
Proof. apply endpoint_of_api_url. reflexivity. Qed.

(** From [In req (sent (run_case t (Some o) w))], with [t] a constructor,
    to the request itself. *)
Ltac the_request H s req Hin :=
  lazymatch type of Hin with
  | In _ (sent (bind (makeRequest ?ep ?m ?d) ?k ?w)) =>
      apply (json_sent_inv ep m d k w s req H (fun _ => eq_refl)) in Hin;
      subst req; rewrite ?endpoint_of_json
  | In _ (sent (bind (makeMultipartRequest ?ep ?f) ?k ?w)) =>
      apply (multipart_sent_inv ep f k w s req H (fun _ => eq_refl)) in Hin;
      destruct Hin as (?boundary & ?body & ->); rewrite ?endpoint_of_multipart
  | In _ (sent (getAttachment ?a ?w)) =>
      apply (attachment_sent_inv a w s req H) in Hin;
      subst req; rewrite ?endpoint_of_attachment
  end.

(** * Query filters *)

Lemma scan_path_plain (a b : string) :
  no_separator a = true -> query_scan InPath (a ++ b) = query_scan InPath b.
Proof.
  induction a as [| c a IH]; cbn; [reflexivity |].
  destruct (is_separator c); cbn; [discriminate | exact IH].
Qed.

Lemma scan_value_plain (a b : string) :
  no_separator a = true -> query_scan InValue (a ++ b) = query_scan InValue b.
Proof.
  induction a as [| c a IH]; cbn; [reflexivity |].
  destruct (is_separator c); cbn; [discriminate | exact IH].
Qed.

Lemma scan_path_end (a : string) :
  no_separator a = true -> query_scan InPath a = [].
Proof.
  intros H. rewrite <- (string_app_nil_r a). rewrite scan_path_plain by exact H.
  reflexivity.
Qed.

Lemma scan_value_end (a : string) :
  no_separator a = true -> query_scan InValue a = [].
Proof.
  intros H. rewrite <- (string_app_nil_r a). rewrite scan_value_plain by exact H.
  reflexivity.
Qed.

Lemma plain_prop (o : Object) (k : string) :
  plain_values o = true -> no_separator (toString (prop o k)) = true.
Proof.
  induction o as [| [k' v] o IH]; cbn [plain_values forallb prop snd].
  - reflexivity.
  - intros H. apply andb_true_iff in H. destruct H as [Hv Ho].
    destruct (String.eqb k' k); [exact Hv | exact (IH Ho)].
Qed.

Ltac plain := first [ apply plain_prop; assumption | reflexivity ].

(** Decide which keys a concrete chain of appended filters carries. *)
Ltac scan_endpoint :=
  unfold has_query_key, query_keys, append_params, push_if_truthy,
    append_if_truthy;
  repeat match goal with
         | |- context [toBoolean (prop ?o ?k)] =>
             destruct (toBoolean (prop o k))
         end;
  repeat (cbn;
          progress rewrite ?string_app_assoc, ?scan_path_plain, ?scan_value_plain
            by plain);
  cbn;
  rewrite ?scan_path_end, ?scan_value_end by plain;
  cbn.

(** * Identifiers and filters of value 0 *)

Lemma zero_in_path (w : World) (s : UserSession) (t : Tool) (o : Object)
    (req : Request) (p : string) :
  getCurrentUserSession w = Some s ->
  In req (sent (run_case t (Some o) w)) ->
  hd_error (required_params t) = Some p ->
  t <> get_user_by_email ->
  prop o p = JNum 0 ->
  exists rest,
    endpoint_of s req = tool_name t ++ "/0" ++ rest
    /\ ends_segment rest = true.
Proof.
  intros H Hin Hp Ht H0. revert Hin.
  destruct t; cbn in Hp; try discriminate Hp; try congruence;
    injection Hp as <-; enter_case; rewrite ?H0; intros Hin;
    the_request H s req Hin;
    unfold append_params, push_if_truthy, append_if_truthy;
    repeat match goal with
           | |- context [toBoolean (prop ?o ?k)] =>
               destruct (toBoolean (prop o k))
           end;
    cbn; eexists; (split; [reflexivity | reflexivity]).
Qed.

(** Every appended filter is guarded by a truthiness test: an optional
    parameter whose value is falsy ([undefined], [null], [0], the empty
    string, [false]) has no entry in the query. *)
Lemma falsy_optional_not_in_query (w : World) (s : UserSession) (t : Tool)
    (o : Object) (req : Request) (p : string) :
  getCurrentUserSession w = Some s ->
  plain_values o = true ->
  In req (sent (run_case t (Some o) w)) ->
  In p (optional_params t) ->
  toBoolean (prop o p) = false ->
  has_query_key p (endpoint_of s req) = false.
Proof.
  intros H Hplain Hin Hp Hf. revert Hin.
  destruct t; vm_compute in Hp;
    repeat (destruct Hp as [<- | Hp]); try contradiction;
    enter_case; intros Hin; the_request H s req Hin;
    unfold append_params, push_if_truthy, append_if_truthy;
    rewrite ?Hf; scan_endpoint; reflexivity.
Qed.

Lemma get_users_zero (w : World) (s : UserSession) (o : Object) (req : Request) :
  getCurrentUserSession w = Some s ->
  In req (sent (run_case get_users (Some o) w)) ->
  toBoolean (prop o "project_id") = false ->
  req = json_request s "get_users" GET JUndefined.
Proof.
  intros H Hin Hf. revert Hin. enter_case. rewrite Hf. intros Hin.
  the_request H s req Hin. reflexivity.
Qed.




(** * Optional fields in the body *)

Lemma sent_field_cons (k : string) (v : JsValue) (o : Object) (p : string) :
  sent_field ((k, v) :: o) p
  = if defined v && String.eqb k p then Some v else sent_field o p.
Proof.
  unfold sent_field, wire_fields. cbn [filter snd].
  destruct (defined v); cbn [andb find fst]; [| reflexivity].
  destruct (String.eqb k p); reflexivity.
Qed.

Lemma sent_field_cons_other (k : string) (v : JsValue) (o : Object) (p : string) :
  String.eqb k p = false -> sent_field ((k, v) :: o) p = sent_field o p.
Proof. intros E. rewrite sent_field_cons, E, andb_false_r. reflexivity. Qed.

Lemma sent_field_cons_undefined (p : string) (o : Object) :
  sent_field ((p, JUndefined) :: o) p = sent_field o p.
Proof. rewrite sent_field_cons. reflexivity. Qed.

Lemma sent_field_cons_same (p : string) (v : JsValue) (o : Object) :
  defined v = true -> sent_field ((p, v) :: o) p = Some v.
Proof. intros D. rewrite sent_field_cons, D, String.eqb_refl. reflexivity. Qed.

Lemma sent_field_set_prop_other (k : string) (v : JsValue) (o : Object) (p : string) :
  String.eqb k p = false -> sent_field (set_prop o k v) p = sent_field o p.
Proof.
  intros E. induction o as [| [k' v'] o IH]; cbn [set_prop].
  - apply sent_field_cons_other. exact E.
  - destruct (String.eqb_spec k' k) as [-> | N].
    + rewrite !sent_field_cons, E, !andb_false_r. reflexivity.
    + rewrite !sent_field_cons, IH. reflexivity.
Qed.

Lemma sent_field_set_prop_same (p : string) (v : JsValue) (o : Object) :
  defined v = true -> sent_field (set_prop o p v) p = Some v.
Proof.
  intros D. induction o as [| [k' v'] o IH]; cbn [set_prop].
  - apply sent_field_cons_same. exact D.
  - destruct (String.eqb k' p) eqn:E.
    + rewrite sent_field_cons, D, E. reflexivity.
    + rewrite sent_field_cons, E, andb_false_r. exact IH.
Qed.

Lemma sent_field_set_when_other (c : bool) (k : string) (v : JsValue) (o : Object)
    (p : string) :
  String.eqb k p = false -> sent_field (set_when c k v o) p = sent_field o p.
Proof.
  intros E. destruct c; cbn [set_when]; [| reflexivity].
  apply sent_field_set_prop_other. exact E.
Qed.

Lemma sent_field_set_when_false (k : string) (v : JsValue) (o : Object) (p : string) :
  sent_field (set_when false k v o) p = sent_field o p.
Proof. reflexivity. Qed.

Lemma sent_field_set_when_same (p : string) (v : JsValue) (o : Object) :
  defined v = true -> sent_field (set_when true p v o) p = Some v.
Proof. intros D. cbn [set_when]. apply sent_field_set_prop_same. exact D. Qed.

(** Look one field up in a payload built by a chain of guarded copies. *)
Ltac lookup_field :=
  cbn [body_field data json_request multipart_request attachment_request];
  unfold copy_if_truthy, copy_if_defined;
  repeat first
    [ rewrite sent_field_set_when_other by reflexivity
    | rewrite sent_field_set_when_false
    | rewrite sent_field_set_when_same by reflexivity
    | rewrite sent_field_cons_other by reflexivity
    | rewrite sent_field_cons_undefined
    | rewrite sent_field_cons_same by reflexivity ].

Lemma absent_optional_not_in_body (w : World) (s : UserSession) (t : Tool)
    (o : Object) (req : Request) (p : string) :
  getCurrentUserSession w = Some s ->
  In req (sent (run_case t (Some o) w)) ->
  In p (optional_params t) ->
  prop o p = JUndefined ->
  body_field req p = None.
Proof.
  intros H Hin Hp Hu. revert Hin.
  destruct t; vm_compute in Hp;
    repeat (destruct Hp as [<- | Hp]); try contradiction;
    enter_case; intros Hin; the_request H s req Hin;
    unfold copy_if_truthy, copy_if_defined; rewrite ?Hu;
    cbn [toBoolean defined]; lookup_field; reflexivity.
Qed.

Lemma empty_optional_in_body (w : World) (s : UserSession) (t : Tool)
    (o : Object) (req : Request) (p : string) :
  getCurrentUserSession w = Some s ->
  In req (sent (run_case t (Some o) w)) ->
  In p (optional_params t) ->
  prop o p = JStr "" ->
  body_field req p
  = if mem p (forwarded_when_empty t) then Some (JStr "") else None.
Proof.
  intros H Hin Hp He. revert Hin.
  destruct t; vm_compute in Hp;
    repeat (destruct Hp as [<- | Hp]); try contradiction;
    enter_case; intros Hin; the_request H s req Hin;
    unfold copy_if_truthy, copy_if_defined; rewrite ?He;
    cbn [toBoolean defined negb String.eqb]; lookup_field; reflexivity.
Qed.




(** * Reading the envelope *)

(** The text of a successful answer is JSON, which never starts with
    [Error: ]: a result of [formatResponse] reads as a success, a result
    of the [catch] branch as a failure carrying the thrown message. *)
Lemma formatResponse_success (d : JsValue) : success (formatResponse d) = true.
Proof.
  unfold success, failure_message, formatResponse, JSON_stringify.
  cbn [content text].
  destruct d as [| | b | n | x | items | fields]; cbn [stringify].
  - reflexivity.
  - reflexivity.
  - destruct b; reflexivity.
  - unfold string_of_Z. destruct (Z.to_int n) as [u | u]; [| reflexivity].
    destruct u; reflexivity.
  - reflexivity.
  - destruct (map _ items); reflexivity.
  - destruct (flat_map _ fields); reflexivity.
Qed.

Lemma error_result_failure (m : string) :
  success (error_result (Error m)) = false
  /\ failure_message (error_result (Error m)) = Some m.
Proof. split; reflexivity. Qed.

(** * Separators, tool by tool *)

Lemma first_separator_plain (a b : string) :
  no_separator a = true -> first_separator (a ++ b) = first_separator b.
Proof.
  induction a as [| c a IH]; cbn; [reflexivity |].
  destruct (is_separator c); cbn; [discriminate | exact IH].
Qed.

Lemma first_separator_end (a : string) :
  no_separator a = true -> first_separator a = None.
Proof.
  intros H. rewrite <- (string_app_nil_r a), first_separator_plain by exact H.
  reflexivity.
Qed.

(** Every method but [getAttachmentsForRun] puts [&] in front of the
    first thing it appends to the path. *)
Lemma first_separator_ampersand (w : World) (s : UserSession) (t : Tool)
    (o : Object) (req : Request) :
  getCurrentUserSession w = Some s ->
  plain_values o = true ->
  In req (sent (run_case t (Some o) w)) ->
  t <> get_attachments_for_run ->
  first_separator (endpoint_of s req) = None
  \/ first_separator (endpoint_of s req) = Some "&"%char.
Proof.
  intros H Hplain Hin Ht. revert Hin.
  destruct t; try congruence; enter_case; intros Hin; the_request H s req Hin;
    unfold append_params, push_if_truthy, append_if_truthy;
    repeat match goal with
           | |- context [toBoolean ?v] => destruct (toBoolean v)
           end;
    repeat (cbn; progress rewrite ?string_app_assoc, ?first_separator_plain by plain);
    cbn; rewrite ?first_separator_end by plain;
    first [ left; reflexivity | right; reflexivity ].
Qed.

Lemma first_separator_of_run (w : World) (s : UserSession) (o : Object)
    (req : Request) :
  getCurrentUserSession w = Some s ->
  plain_values o = true ->
  In req (sent (run_case get_attachments_for_run (Some o) w)) ->
  first_separator (endpoint_of s req) = None
  \/ first_separator (endpoint_of s req) = Some "?"%char.
Proof.
  intros H Hplain Hin. revert Hin.
  enter_case; intros Hin; the_request H s req Hin;
    unfold append_params, push_if_truthy;
    repeat match goal with
           | |- context [toBoolean ?v] => destruct (toBoolean v)
           end;
    repeat (cbn; progress rewrite ?string_app_assoc, ?first_separator_plain by plain);
    cbn; rewrite ?first_separator_end by plain;
    first [ left; reflexivity | right; reflexivity ].
Qed.

(** * Registry and switch *)

Lemma mem_In (x : string) (l : list string) : mem x l = true <-> In x l.
Proof.
  unfold mem. rewrite existsb_exists. split.
  - intros (y & Hy & E). apply String.eqb_eq in E. subst y. exact Hy.
  - intros H. exists x. split; [exact H | apply String.eqb_refl].
Qed.

Lemma distinct_NoDup (l : list string) : distinct l = true -> NoDup l.
Proof.
  induction l as [| x l IH]; cbn [distinct]; intros H.
  - constructor.
  - apply andb_true_iff in H. destruct H as [Hx Hl]. constructor.
    + intros Hin. apply mem_In in Hin. rewrite Hin in Hx. discriminate Hx.
    + exact (IH Hl).
Qed.

(** X1.  The registry answered to ListTools and the [switch] of CallTool
    are in lockstep: the registry lists the case labels, in the same
    order and without repetition, so a name is listed exactly when the
    [switch] has a case for it, and every case finds its own entry. *)
Theorem registry_in_lockstep :
  map name tools = map tool_name all_tools
  /\ NoDup (map name tools)
  /\ (forall n, In n (map name tools) <-> exists t, tool_of_name n = Some t)
  /\ (forall t, exists s, spec_of t = Some s /\ name s = tool_name t)
  /\ (forall n t, tool_of_name n = Some t -> tool_name t = n).
Proof.
  split; [reflexivity |]. split; [apply distinct_NoDup; vm_compute; reflexivity |].
  split; [| split].
  - intros n. split.
    + intros Hin. destruct (tool_of_name n) as [t |] eqn:E.
      * exists t. reflexivity.
      * exfalso. unfold tool_of_name in E.
        rewrite registry_names in Hin. apply in_map_iff in Hin.
        destruct Hin as (t & Ht & _).
        assert (Hall : In t all_tools) by (destruct t; cbn; tauto).
        pose proof (find_none _ _ E t Hall) as F. cbn beta in F.
        rewrite Ht, String.eqb_refl in F. discriminate F.
    + intros (t & Ht). exact (tool_of_name_registered n t Ht).
  - intros t. destruct t; eexists; (split; [reflexivity | reflexivity]).
  - intros n t H. unfold tool_of_name in H. apply find_some in H.
    destruct H as [_ E]. apply String.eqb_eq in E. exact E.
Qed.

(** * At most one request *)

Lemma makeRequest_sent_le {B} (endpoint : string) (m : Method) (d : JsValue)
    (k : JsValue -> M B) (w : World) :
  (forall x, sent (k x w) = []) ->
  List.length (sent (bind (makeRequest endpoint m d) k w)) <= 1.
Proof.
  intros K. destruct (getCurrentUserSession w) as [s |] eqn:H.
  - rewrite (makeRequest_present _ _ _ _ w s H).
    destruct (axios_result w (json_request s endpoint m d)); cbn.
    + rewrite K. cbn. lia.
    + lia.
  - rewrite (makeRequest_absent _ _ _ _ w H). cbn. lia.
Qed.

Lemma makeMultipartRequest_sent_le {B} (endpoint : string) (f : JsValue)
    (k : JsValue -> M B) (w : World) :
  (forall x, sent (k x w) = []) ->
  List.length (sent (bind (makeMultipartRequest endpoint f) k w)) <= 1.
Proof.
  intros K. destruct (getCurrentUserSession w) as [s |] eqn:H.
  - rewrite (makeMultipartRequest_sent _ _ _ w s H K).
    destruct (readable_file w f); lia.
  - rewrite (makeMultipartRequest_absent _ _ _ w H). cbn. lia.
Qed.

Lemma getAttachment_sent_le (a : JsValue) (w : World) :
  List.length (sent (getAttachment a w)) <= 1.
Proof.
  destruct (getCurrentUserSession w) as [s |] eqn:H.
  - rewrite (getAttachment_present a w s H).
    destruct (axios_result w (attachment_request s a)); cbn; lia.
  - rewrite (getAttachment_absent a w H). cbn. lia.
Qed.

Lemma run_case_sent_le (t : Tool) (args : Args) (w : World) :
  List.length (sent (run_case t args w)) <= 1.
Proof.
  destruct args as [o |].
  - destruct t; enter_case;
      first [ apply makeRequest_sent_le; reflexivity
            | apply makeMultipartRequest_sent_le; reflexivity
            | apply getAttachment_sent_le ].
  - destruct t; cbn [run_case];
      first [ cbn; lia
            | cbv beta delta
                [getProjects getCaseTypes getCaseFields getCurrentUser
                 getStatuses getCaseStatuses getPriorities getResultFields];
              apply makeRequest_sent_le; reflexivity
            | cbv beta delta
                [addSuite updateSuite getSections addSection updateSection
                 moveSection getCases addCase updateCase getHistoryForCase
                 copyCasesToSection moveCasesToSection deleteCases addRun
                 updateRun deleteRun getResultsForCase addResult
                 addResultForCase addResultsForCases addResults addPlan
                 addPlanEntry addRunToPlanEntry updatePlan updatePlanEntry
                 updateRunInPlanEntry deletePlanEntry addMilestone
                 updateMilestone addAttachmentToCase addAttachmentToResult
                 addAttachmentToRun addAttachmentToPlan addAttachmentToPlanEntry
                 getAttachmentsForCase getAttachmentsForRun getAttachmentsForPlan
                 getAttachmentsForPlanEntry];
              cbn; lia ].
Qed.

(** X2.  Whatever the name, the arguments and the world, one call hands
    at most one request to the transport: nothing is retried, repeated
    or fanned out. *)
Theorem at_most_one_request (w : World) (n : string) (args : Args) :
  List.length (sent (CallTool n args w)) <= 1.
Proof.
  rewrite CallTool_run. change (sent (?a, ?b)) with b.
  unfold switch. destruct (tool_of_name n) as [t |].
  - apply run_case_sent_le.
  - cbn. lia.
Qed.

(** * A failed transport call *)

Lemma json_call_failure (endpoint : string) (m : Method) (d : JsValue)
    (k : JsValue -> M CallToolResult) (w : World) (s : UserSession)
    (req : Request) (e : Exn) :
  getCurrentUserSession w = Some s ->
  (forall x, sent (k x w) = []) ->
  In req (sent (bind (makeRequest endpoint m d) k w)) ->
  axios_result w req = Thrown e ->
  bind (makeRequest endpoint m d) k w = (Thrown e, [req]).
Proof.
  intros H K Hin Hr.
  pose proof (json_sent_inv _ _ _ _ w s req H K Hin) as ->.
  rewrite (makeRequest_present _ _ _ _ w s H), Hr. reflexivity.
Qed.

Lemma multipart_call_failure (endpoint : string) (f : JsValue)
    (w : World) (s : UserSession) (req : Request) (e : Exn) :
  getCurrentUserSession w = Some s ->
  In req (sent (bind (makeMultipartRequest endpoint f)
                  (fun data => ret (formatResponse data)) w)) ->
  axios_result w req = Thrown e ->
  bind (makeMultipartRequest endpoint f) (fun data => ret (formatResponse data)) w
  = (Thrown e, [req]).
Proof.
  intros H.
  unfold makeMultipartRequest, bind, readFileSync, path_basename,
    ask, lift, throw, ret, axios, sent.
  rewrite H.
  destruct f; cbn; try (intros []).
  - destruct (fs_read_fd w n); cbn; intros [].
  - destruct (fs_read_path w s0) as [b | e0]; cbn; [| intros []].
    match goal with
    | |- context [axios_result w ?r] =>
        destruct (axios_result w r) as [r' | e'] eqn:E
    end; cbn; intros [<- | []] Hr; rewrite E in Hr.
    + discriminate Hr.
    + injection Hr as ->. reflexivity.
Qed.

Lemma attachment_call_failure (a : JsValue) (w : World) (s : UserSession)
    (req : Request) (e : Exn) :
  getCurrentUserSession w = Some s ->
  In req (sent (getAttachment a w)) ->
  axios_result w req = Thrown e ->
  getAttachment a w = (Thrown e, [req]).
Proof.
  intros H Hin Hr.
  pose proof (attachment_sent_inv a w s req H Hin) as ->.
  rewrite (getAttachment_present a w s H), Hr. reflexivity.
Qed.

Lemma run_case_failure (t : Tool) (o : Object) (w : World) (s : UserSession)
    (req : Request) (e : Exn) :
  getCurrentUserSession w = Some s ->
  In req (sent (run_case t (Some o) w)) ->
  axios_result w req = Thrown e ->
  run_case t (Some o) w = (Thrown e, [req]).
Proof.
  intros H.
  destruct t; enter_case; intros Hin Hr;
    first
      [ apply (json_call_failure _ _ _ _ w s req e H);
        [intros; reflexivity | exact Hin | exact Hr]
      | exact (multipart_call_failure _ _ w s req e H Hin Hr)
      | exact (attachment_call_failure _ w s req e H Hin Hr) ].
Qed.

(** X3.  When the transport throws on the request a call sent (a network
    failure, or a status outside 2xx), the call returns the failure
    envelope carrying the thrown message, and that request is the only
    one sent: no retry, for any tool. *)
Theorem transport_failure_surfaces (w : World) (s : UserSession) (t : Tool)
    (o : Object) (req : Request) (m : string) :
  getCurrentUserSession w = Some s ->
  In req (sent (CallTool (tool_name t) (Some o) w)) ->
  axios_result w req = Thrown (Error m) ->
  exists r,
    CallTool (tool_name t) (Some o) w = (Returned r, [req])
    /\ success r = false
    /\ failure_message r = Some m.
Proof.
  intros H Hin Hr. rewrite CallTool_run, switch_tool in *.
  change (sent (?a, ?b)) with b in Hin.
  rewrite (run_case_failure t o w s req (Error m) H Hin Hr).
  eexists. split; [reflexivity |]. split; reflexivity.
Qed.

Lemma transport_failure_surfaces_witness :
  exists r,
    CallTool (tool_name get_project) (Some [("project_id", JNum 1)]) failing_world
    = (Returned r, [json_request example_session "get_project/1" GET JUndefined])
    /\ success r = false
    /\ failure_message r = Some "Request failed with status code 500".
Proof.
  apply (transport_failure_surfaces failing_world example_session get_project
           [("project_id", JNum 1)]
           (json_request example_session "get_project/1" GET JUndefined)
           "Request failed with status code 500").
  - reflexivity.
  - left. reflexivity.
  - reflexivity.
Defined.

(** * Every request is the session's *)

Lemma run_case_request_shape (t : Tool) (o : Object) (w : World) (s : UserSession)
    (req : Request) :
  getCurrentUserSession w = Some s ->
  In req (sent (run_case t (Some o) w)) ->
  (exists ep m d, req = json_request s ep m d)
  \/ (exists ep b body, req = multipart_request s ep b body)
  \/ (exists a, req = attachment_request s a).
Proof.
  intros H.
  destruct t; enter_case; intros Hin;
    lazymatch type of Hin with
    | In _ (sent (bind (makeRequest ?ep ?m ?d) ?k ?w)) =>
        left; exists ep, m, d;
        exact (json_sent_inv ep m d k w s req H (fun _ => eq_refl) Hin)
    | In _ (sent (bind (makeMultipartRequest ?ep ?f) ?k ?w)) =>
        right; left; exists ep;
        exact (multipart_sent_inv ep f k w s req H (fun _ => eq_refl) Hin)
    | In _ (sent (getAttachment ?a ?w)) =>
        right; right; exists a;
        exact (attachment_sent_inv a w s req H Hin)
    end.
Qed.

(** X4.  Every request a call sends is addressed to the resolved
    session's service, under [/index.php?/api/v2/], and carries that
    session's credentials as [Authorization: Basic
    base64(username:apiKey)]. *)
Theorem requests_carry_session (w : World) (s : UserSession) (t : Tool)
    (o : Object) (req : Request) :
  getCurrentUserSession w = Some s ->
  In req (sent (CallTool (tool_name t) (Some o) w)) ->
  url req = testrailUrl s ++ "/index.php?/api/v2/" ++ endpoint_of s req
  /\ header req "Authorization"
     = Some ("Basic "
             ++ toString_base64 (Buffer_from (username s ++ ":" ++ apiKey s))).
Proof.
  intros H Hin. rewrite CallTool_run, switch_tool in Hin.
  change (sent (?a, ?b)) with b in Hin.
  destruct (run_case_request_shape t o w s req H Hin)
    as [(ep & m & d & ->) | [(ep & b & body & ->) | (a & ->)]].
  - rewrite endpoint_of_json. split; reflexivity.
  - rewrite endpoint_of_multipart. split; reflexivity.
  - rewrite endpoint_of_attachment. split; reflexivity.
Qed.

Lemma requests_carry_session_witness :
  url (json_request example_session "get_run/7" GET JUndefined)
  = testrailUrl example_session ++ "/index.php?/api/v2/"
    ++ endpoint_of example_session
         (json_request example_session "get_run/7" GET JUndefined)
  /\ header (json_request example_session "get_run/7" GET JUndefined) "Authorization"
     = Some ("Basic "
             ++ toString_base64
                  (Buffer_from (username example_session ++ ":"
                                ++ apiKey example_session))).
Proof.
  apply (requests_carry_session example_world example_session get_run
           [("run_id", JNum 7)]).
  - reflexivity.
  - left. reflexivity.
Defined.

(** * Verbs *)

(** X5.  A tool whose name starts with [get_] sends a GET without data;
    every other tool sends a POST.  No tool sends a DELETE, although
    [makeRequest] accepts one: deletions are POSTs. *)
Theorem http_methods (w : World) (s : UserSession) (t : Tool) (o : Object)
    (req : Request) :
  getCurrentUserSession w = Some s ->
  In req (sent (CallTool (tool_name t) (Some o) w)) ->
  method req = (if is_read t then GET else POST)
  /\ method req <> DELETE
  /\ (is_read t = true -> data req = JsonData JUndefined).
Proof.
  intros H Hin. rewrite CallTool_run, switch_tool in Hin.
  change (sent (?a, ?b)) with b in Hin. revert Hin.
  destruct t; enter_case; intros Hin; the_request H s req Hin;
    (split; [reflexivity | split; [discriminate |]]);
    first [ intros _; reflexivity | intros E; discriminate E ].
Qed.

Lemma http_methods_witness :
  method (json_request example_session "delete_run/7" POST JUndefined)
  = (if is_read delete_run then GET else POST)
  /\ method (json_request example_session "delete_run/7" POST JUndefined) <> DELETE
  /\ (is_read delete_run = true ->
      data (json_request example_session "delete_run/7" POST JUndefined)
      = JsonData JUndefined).
Proof.
  apply (http_methods example_world example_session delete_run
           [("run_id", JNum 7)]).
  - reflexivity.
  - left. reflexivity.
Defined.

(** * The remote operation of a tool *)

(** X6.  The operation path of every request starts with the name of the
    tool that was called: each case of the [switch] reaches the remote
    operation of its own name. *)
Theorem endpoint_names_the_tool (w : World) (s : UserSession) (t : Tool)
    (o : Object) (req : Request) :
  getCurrentUserSession w = Some s ->
  In req (sent (CallTool (tool_name t) (Some o) w)) ->
  exists rest,
    endpoint_of s req = tool_name t ++ rest
    /\ ends_segment rest = true.
Proof.
  intros H Hin. rewrite CallTool_run, switch_tool in Hin.
  change (sent (?a, ?b)) with b in Hin. revert Hin.
  destruct t; enter_case; intros Hin; the_request H s req Hin;
    unfold append_params, push_if_truthy, append_if_truthy;
    repeat match goal with
           | |- context [toBoolean ?v] => destruct (toBoolean v)
           end;
    rewrite ?string_app_assoc; cbn [tool_name];
    eexists; (split; [reflexivity | reflexivity]).
Qed.

Lemma endpoint_names_the_tool_witness :
  exists rest,
    endpoint_of example_session
      (json_request example_session "get_cases/1&suite_id=2" GET JUndefined)
    = tool_name get_cases ++ rest
    /\ ends_segment rest = true.
Proof.
  apply (endpoint_names_the_tool example_world example_session get_cases
           [("project_id", JNum 1); ("suite_id", JNum 2)]).
  - reflexivity.
  - left. reflexivity.
Defined.

(** * Telling a failure from a success *)

Lemma bind_returns_formatted {A} (m : M A) (g : A -> JsValue) (w : World)
    (r : CallToolResult) :
  result (bind m (fun x => ret (formatResponse (g x))) w) = Returned r ->
  exists d, r = formatResponse d.
Proof.
  unfold result, bind, ret. destruct (m w) as [[a | e] l]; cbn.
  - intros E. injection E as <-. eexists. reflexivity.
  - discriminate.
Qed.

Lemma getAttachment_returns_formatted (a : JsValue) (w : World)
    (r : CallToolResult) :
  result (getAttachment a w) = Returned r -> exists d, r = formatResponse d.
Proof.
  unfold getAttachment, result, bind, ask, axios, ret, throw. cbn.
  destruct (getCurrentUserSession w) as [s |]; cbn; [| discriminate].
  destruct (axios_result w (attachment_request s a)); cbn; [| discriminate].
  intros E. injection E as <-. eexists. reflexivity.
Qed.

Lemma reading_absent {B} (p : string) (k : Object -> M B) (w : World) :
  bind (reading None p) k w
  = (Thrown (Error ("Cannot read properties of undefined (reading '" ++ p ++ "')")),
     []).
Proof. reflexivity. Qed.

(** Unfold the method of a parameterless case. *)
Ltac enter_plain_case :=
  cbn [run_case];
  cbv beta delta
    [getProjects getCaseTypes getCaseFields getCurrentUser getStatuses
     getCaseStatuses getPriorities getResultFields].

(** Unfold the method of a case that passes [args] along. *)
Ltac enter_args_case :=
  cbn [run_case];
  cbv beta delta
    [addSuite updateSuite getSections addSection updateSection moveSection
     getCases addCase updateCase getHistoryForCase copyCasesToSection
     moveCasesToSection deleteCases addRun updateRun deleteRun
     getResultsForCase addResult addResultForCase addResultsForCases
     addResults addPlan addPlanEntry addRunToPlanEntry updatePlan
     updatePlanEntry updateRunInPlanEntry deletePlanEntry addMilestone
     updateMilestone addAttachmentToCase addAttachmentToResult
     addAttachmentToRun addAttachmentToPlan addAttachmentToPlanEntry
     getAttachmentsForCase getAttachmentsForRun getAttachmentsForPlan
     getAttachmentsForPlanEntry].

Lemma run_case_returns_formatted (t : Tool) (args : Args) (w : World)
    (r : CallToolResult) :
  result (run_case t args w) = Returned r -> exists d, r = formatResponse d.
Proof.
  destruct args as [o |].
  - destruct t; enter_case;
      first [ apply (bind_returns_formatted _ (fun x => x))
            | apply (bind_returns_formatted _ (fun _ => _))
            | apply getAttachment_returns_formatted ].
  - destruct t; enter_args_case; enter_plain_case;
      first [ rewrite reading_absent; discriminate
            | apply (bind_returns_formatted _ (fun x => x)) ].
Qed.

(** X7.  The handler never throws, and its envelope tells the outcome of
    the [switch] truthfully: the text starts with [Error: ] exactly when
    something was thrown (an unknown name, a missing session, a failed
    call, unreadable arguments or files), and never when a method
    returned. *)
Theorem envelope_tells_outcome (w : World) (n : string) (args : Args) :
  exists r,
    CallTool n args w = (Returned r, sent (switch n args w))
    /\ success r
       = match result (switch n args w) with
         | Returned _ => true
         | Thrown _ => false
         end.
Proof.
  rewrite CallTool_run. eexists. split; [reflexivity |].
  destruct (result (switch n args w)) as [r | e] eqn:E; cbn [settle].
  - unfold switch in E. destruct (tool_of_name n) as [t |]; [| discriminate E].
    destruct (run_case_returns_formatted t args w r E) as (d & ->).
    apply formatResponse_success.
  - destruct e; reflexivity.
Qed.

(** * A call without arguments *)

Lemma run_case_absent_arguments (t : Tool) (w : World) :
  declared_params t <> [] ->
  exists p,
    run_case t None w
    = (Thrown (Error ("Cannot read properties of undefined (reading '" ++ p ++ "')")),
       []).
Proof.
  intros D.
  destruct t; try (exfalso; apply D; reflexivity);
    enter_args_case; eexists; apply reading_absent.
Qed.

Lemma run_case_no_parameters (t : Tool) (o : Object) (w : World) :
  declared_params t = [] -> run_case t None w = run_case t (Some o) w.
Proof.
  intros D. destruct t; try discriminate D; reflexivity.
Qed.

(** X8.  When the caller leaves [arguments] out, every tool that
    declares a parameter (the optional [project_id] of [get_users]
    included) fails on reading a property of [undefined]: nothing is
    sent, whether or not a session exists.  The tools that declare no
    parameter behave as with any argument object. *)
Theorem absent_arguments (w : World) (t : Tool) :
  (declared_params t <> [] ->
   exists r p,
     CallTool (tool_name t) None w = (Returned r, [])
     /\ success r = false
     /\ failure_message r
        = Some ("Cannot read properties of undefined (reading '" ++ p ++ "')"))
  /\ (declared_params t = [] ->
      forall o, CallTool (tool_name t) None w = CallTool (tool_name t) (Some o) w).
Proof.
  split.
  - intros D. destruct (run_case_absent_arguments t w D) as (p & E).
    eexists. exists p. rewrite CallTool_run, switch_tool, E.
    split; [reflexivity |]. split; reflexivity.
  - intros D o. rewrite !CallTool_run, !switch_tool.
    rewrite (run_case_no_parameters t o w D). reflexivity.
Qed.

Lemma absent_arguments_witness :
  (exists r p,
      CallTool (tool_name get_users) None example_world = (Returned r, [])
      /\ success r = false
      /\ failure_message r
         = Some ("Cannot read properties of undefined (reading '" ++ p ++ "')"))
  /\ CallTool (tool_name get_projects) None example_world
     = CallTool (tool_name get_projects) (Some [("x", JNum 1)]) example_world.
Proof.
  split.
  - apply (proj1 (absent_arguments example_world get_users)). discriminate.
  - apply (proj2 (absent_arguments example_world get_projects)). reflexivity.
Defined.

(** * The escaped email *)

Lemma uri_escape_char_plain (c : ascii) :
  no_separator (if uri_unreserved c then String c "" else "%" ++ hex2 true c) = true
  /\ contains "=" (if uri_unreserved c then String c "" else "%" ++ hex2 true c)
     = false.
Proof.
  destruct c as [[] [] [] [] [] [] [] []]; split; reflexivity.
Qed.

Lemma no_separator_app (a b : string) :
  no_separator (a ++ b) = no_separator a && no_separator b.
Proof.
  induction a as [| c a IH]; cbn; [reflexivity |].
  rewrite IH. apply andb_assoc.
Qed.

Lemma uri_escape_plain (x : string) : no_separator (uri_escape x) = true.
Proof.
  induction x as [| c x IH]; cbn [uri_escape]; [reflexivity |].
  rewrite no_separator_app, IH, (proj1 (uri_escape_char_plain c)). reflexivity.
Qed.

(** X9.  Whatever string is passed as [email] to [get_user_by_email], it
    is percent-escaped before it is appended: the operation path carries
    the single query entry [email], appended with [&], and nothing in the
    value can open a second entry. *)
Theorem email_is_one_entry (w : World) (s : UserSession) (o : Object)
    (req : Request) :
  getCurrentUserSession w = Some s ->
  In req (sent (CallTool "get_user_by_email" (Some o) w)) ->
  endpoint_of s req
  = "get_user_by_email&email=" ++ encodeURIComponent (prop o "email")
  /\ query_keys (endpoint_of s req) = ["email"]
  /\ no_separator (encodeURIComponent (prop o "email")) = true.
Proof.
  intros H Hin. rewrite CallTool_run in Hin.
  change "get_user_by_email" with (tool_name get_user_by_email) in Hin.
  rewrite switch_tool in Hin. change (sent (?a, ?b)) with b in Hin.
  revert Hin. enter_case. intros Hin. the_request H s req Hin.
  split; [reflexivity |]. split; [| apply uri_escape_plain].
  unfold query_keys, encodeURIComponent. cbn.
  rewrite scan_value_end by apply uri_escape_plain. reflexivity.
Qed.

Lemma email_is_one_entry_witness :
  endpoint_of example_session
    (json_request example_session "get_user_by_email&email=a%26b%3F%40c.io"
       GET JUndefined)
  = "get_user_by_email&email="
    ++ encodeURIComponent (prop [("email", JStr "a&b?@c.io")] "email")
  /\ query_keys
       (endpoint_of example_session
          (json_request example_session "get_user_by_email&email=a%26b%3F%40c.io"
             GET JUndefined)) = ["email"]
  /\ no_separator (encodeURIComponent (prop [("email", JStr "a&b?@c.io")] "email"))
     = true.
Proof.
  apply (email_is_one_entry example_world example_session
           [("email", JStr "a&b?@c.io")]).
  - reflexivity.
  - left. reflexivity.
Defined.

(** * Undeclared arguments *)

Lemma run_case_declared_only (t : Tool) (o o' : Object) (w : World) :
  (forall p, In p (declared_params t) -> prop o p = prop o' p) ->
  run_case t (Some o) w = run_case t (Some o') w.
Proof.
  intros E.
  destruct t; enter_case; rewrite ?bind_reading;
    unfold copy_if_truthy, copy_if_defined, push_if_truthy, append_if_truthy;
    repeat match goal with
           | |- context [prop o ?k] =>
               rewrite (E k) by (vm_compute; tauto)
           end;
    reflexivity.
Qed.

(** X10.  A method reads no argument that its registry entry does not
    declare: two argument objects that agree on the declared parameters
    of a tool give the same requests and the same answer, so undeclared
    extras are ignored. *)
Theorem undeclared_arguments_ignored (w : World) (t : Tool) (o o' : Object) :
  (forall p, In p (declared_params t) -> prop o p = prop o' p) ->
  CallTool (tool_name t) (Some o) w = CallTool (tool_name t) (Some o') w.
Proof.
  intros E. rewrite !CallTool_run, !switch_tool.
  rewrite (run_case_declared_only t o o' w E). reflexivity.
Qed.

Lemma undeclared_arguments_ignored_witness :
  CallTool (tool_name get_project) (Some [("project_id", JNum 1)]) example_world
  = CallTool (tool_name get_project)
      (Some [("suite_id", JNum 9); ("project_id", JNum 1)]) example_world.
Proof.
  apply (undeclared_arguments_ignored example_world get_project
           [("project_id", JNum 1)]
           [("suite_id", JNum 9); ("project_id", JNum 1)]).
  intros p [<- | []]. reflexivity.
Defined.

(** * Query entries come from truthy optional parameters *)

Lemma query_keys_are_optional (w : World) (s : UserSession) (t : Tool)
    (o : Object) (req : Request) :
  getCurrentUserSession w = Some s ->
  plain_values o = true ->
  In req (sent (run_case t (Some o) w)) ->
  Forall (fun k => (t = get_user_by_email /\ k = "email")
                   \/ (In k (optional_params t) /\ toBoolean (prop o k) = true))
    (query_keys (endpoint_of s req)).
Proof.
  intros H Hplain Hin. revert Hin.
  destruct t; enter_case; intros Hin; the_request H s req Hin;
    unfold query_keys, append_params, push_if_truthy, append_if_truthy,
      encodeURIComponent;
    repeat match goal with
           | |- context [toBoolean (prop ?o ?k)] =>
               let E := fresh "E" in destruct (toBoolean (prop o k)) eqn:E
           end;
    repeat (cbn [query_scan is_separator Ascii.eqb Bool.eqb orb String.append
                 List.app List.length Nat.ltb Nat.leb join];
            progress rewrite ?string_app_assoc, ?scan_path_plain, ?scan_value_plain
              by plain);
    cbn [query_scan is_separator Ascii.eqb Bool.eqb orb String.append
         List.app List.length Nat.ltb Nat.leb join];
    rewrite ?scan_path_end, ?scan_value_end
      by (first [plain | apply uri_escape_plain]);
    repeat (constructor;
            [ first [ left; split; reflexivity
                    | right; split; [vm_compute; tauto | assumption] ] | ]);
    constructor.
Qed.

Lemma query_entries_are_optional (w : World) (s : UserSession) (t : Tool)
    (o : Object) (req : Request) (p : string) :
  getCurrentUserSession w = Some s ->
  plain_values o = true ->
  In req (sent (run_case t (Some o) w)) ->
  has_query_key p (endpoint_of s req) = true ->
  (t = get_user_by_email /\ p = "email")
  \/ (In p (optional_params t) /\ toBoolean (prop o p) = true).
Proof.
  intros H Hplain Hin Hk.
  pose proof (query_keys_are_optional w s t o req H Hplain Hin) as F.
  unfold has_query_key in Hk. apply existsb_exists in Hk.
  destruct Hk as (k & Hin' & E). apply String.eqb_eq in E. subst k.
  rewrite Forall_forall in F. exact (F p Hin').
Qed.

(** X11.  A query entry is never invented: when the operation path of a
    request carries an entry [p], then [p] is an optional parameter of
    the tool and its value is truthy (or it is the [email] of
    [get_user_by_email]).  Required identifiers and body fields never
    turn into query entries. *)
Theorem query_entries_declared (w : World) (s : UserSession) (t : Tool)
    (o : Object) (req : Request) (p : string) :
  getCurrentUserSession w = Some s ->
  plain_values o = true ->
  In req (sent (CallTool (tool_name t) (Some o) w)) ->
  has_query_key p (endpoint_of s req) = true ->
  (t = get_user_by_email /\ p = "email")
  \/ (In p (optional_params t) /\ toBoolean (prop o p) = true).
Proof.
  intros H Hplain Hin Hk. rewrite CallTool_run, switch_tool in Hin.
  change (sent (?a, ?b)) with b in Hin.
  exact (query_entries_are_optional w s t o req p H Hplain Hin Hk).
Qed.

Lemma query_entries_declared_witness :
  (get_cases = get_user_by_email /\ "section_id" = "email")
  \/ (In "section_id" (optional_params get_cases)
      /\ toBoolean (prop [("project_id", JNum 1); ("section_id", JNum 4)]
                      "section_id") = true).
Proof.
  apply (query_entries_declared example_world example_session get_cases
           [("project_id", JNum 1); ("section_id", JNum 4)]
           (json_request example_session "get_cases/1&section_id=4" GET JUndefined)
           "section_id").
  - reflexivity.
  - reflexivity.
  - left. reflexivity.
  - reflexivity.
Defined.

(** * Declared arguments reach the request *)

Lemma strip_prefix_app (x b : string) : strip_prefix x (x ++ b) = Some b.
Proof.
  induction x as [| c x IH]; cbn; [reflexivity |].
  rewrite Ascii.eqb_refl. exact IH.
Qed.

Lemma strip_prefix_refl (x : string) : strip_prefix x x = Some "".
Proof.
  induction x as [| c x IH]; cbn; [reflexivity |].
  rewrite Ascii.eqb_refl. exact IH.
Qed.

Lemma contains_head (x s : string) :
  strip_prefix x s <> None -> contains x s = true.
Proof.
  intros H. destruct s; cbn [contains];
    destruct (strip_prefix x _); try reflexivity; contradiction.
Qed.

Lemma contains_cons (x : string) (c : ascii) (s : string) :
  contains x s = true -> contains x (String c s) = true.
Proof.
  intros H. cbn [contains].
  destruct (strip_prefix x (String c s)); [reflexivity | exact H].
Qed.

Lemma contains_app_r (x a b : string) :
  contains x b = true -> contains x (a ++ b) = true.
Proof.
  intros H. induction a as [| c a IH]; cbn [String.append]; [exact H |].
  apply contains_cons. exact IH.
Qed.

Lemma truthy_defined (v : JsValue) : toBoolean v = true -> defined v = true.
Proof. destruct v; cbn; congruence. Qed.

(** Find a rendered value inside a concrete chain of appended pieces. *)
Ltac find_sub :=
  first
    [ apply contains_head; cbn [strip_prefix Ascii.eqb Bool.eqb andb];
      rewrite ?strip_prefix_app, ?strip_prefix_refl; discriminate
    | apply contains_cons; find_sub
    | apply contains_app_r; find_sub ].

Ltac lookup_truthy Ht :=
  cbn [body_field data json_request multipart_request attachment_request];
  unfold copy_if_truthy, copy_if_defined;
  rewrite ?Ht, ?(truthy_defined _ Ht);
  repeat first
    [ rewrite sent_field_set_when_other by reflexivity
    | rewrite sent_field_set_when_same by (apply truthy_defined; exact Ht)
    | rewrite sent_field_cons_other by reflexivity
    | rewrite sent_field_cons_same by (apply truthy_defined; exact Ht) ];
  reflexivity.

Ltac search_endpoint Ht :=
  unfold append_params, push_if_truthy, append_if_truthy, encodeURIComponent;
  rewrite ?Ht;
  repeat match goal with
         | |- context [toBoolean (prop ?o ?k)] => destruct (toBoolean (prop o k))
         end;
  cbn [String.append List.app List.length Nat.ltb Nat.leb join];
  rewrite ?string_app_assoc;
  cbn [String.append];
  find_sub.

Lemma declared_reach (w : World) (s : UserSession) (t : Tool) (o : Object)
    (req : Request) (p : string) :
  getCurrentUserSession w = Some s ->
  In req (sent (run_case t (Some o) w)) ->
  In p (declared_params t) ->
  toBoolean (prop o p) = true ->
  reaches s req p (prop o p).
Proof.
  intros H Hin Hp Ht. revert Hin. unfold reaches.
  destruct t; vm_compute in Hp;
    repeat (destruct Hp as [<- | Hp]); try contradiction;
    enter_case; intros Hin; the_request H s req Hin;
    first
      [ left; lookup_truthy Ht
      | right; left; search_endpoint Ht
      | right; right; left; search_endpoint Ht
      | right; right; right; left; split; [reflexivity | search_endpoint Ht]
      | right; right; right; right; split; [reflexivity | eexists; reflexivity] ].
Qed.



(** * An upload that cannot read its file *)

Lemma multipart_unreadable {B} (endpoint : string) (f : JsValue)
    (k : JsValue -> M B) (w : World) (s : UserSession) :
  getCurrentUserSession w = Some s ->
  readable_file w f = false ->
  exists e,
    bind (makeMultipartRequest endpoint f) k w = (Thrown e, [])
    /\ (forall p e', f = JStr p -> fs_read_path w p = Thrown e' -> e = e').
Proof.
  intros H R.
  unfold makeMultipartRequest, readable_file, bind, readFileSync, path_basename,
    ask, lift, throw, ret, axios in *.
  rewrite H.
  destruct f; cbn;
    try (eexists; split; [reflexivity | intros p e' E; discriminate E]).
  - destruct (fs_read_fd w n); cbn;
      eexists; (split; [reflexivity | intros p e' E; discriminate E]).
  - destruct (fs_read_path w s0) as [b | e] eqn:F; [discriminate R |]. cbn.
    exists e. split; [reflexivity |].
    intros p e' E F'. injection E as <-. rewrite F in F'. injection F' as ->.
    reflexivity.
Qed.

Lemma run_case_unreadable (t : Tool) (o : Object) (w : World) (s : UserSession) :
  getCurrentUserSession w = Some s ->
  is_upload t = true ->
  readable_file w (prop o "file_path") = false ->
  exists e,
    run_case t (Some o) w = (Thrown e, [])
    /\ (forall p e', prop o "file_path" = JStr p ->
                     fs_read_path w p = Thrown e' -> e = e').
Proof.
  intros H U R.
  destruct t; try discriminate U; enter_case;
    exact (multipart_unreadable _ _ _ w s H R).
Qed.



(** * The announced filename *)

Lemma list_ascii_app (a b : string) :
  list_ascii_of_string (a ++ b)
  = (list_ascii_of_string a ++ list_ascii_of_string b)%list.
Proof.
  induction a as [| c a IH]; cbn; [reflexivity | rewrite IH; reflexivity].
Qed.

Lemma no_slash_list (n : string) :
  no_slash n = forallb (fun c => negb (is_slash c)) (list_ascii_of_string n).
Proof.
  induction n as [| c n IH]; cbn; [reflexivity | rewrite IH; reflexivity].
Qed.

Lemma no_slash_of_list (l : list ascii) :
  no_slash (string_of_list_ascii l) = forallb (fun c => negb (is_slash c)) l.
Proof.
  induction l as [| c l IH]; cbn; [reflexivity | rewrite IH; reflexivity].
Qed.

Lemma take_name_plain (l : list ascii) :
  forallb (fun c => negb (is_slash c)) (take_name l) = true.
Proof.
  induction l as [| c l IH]; cbn; [reflexivity |].
  destruct (is_slash c) eqn:E; cbn; [reflexivity |].
  rewrite E, IH. reflexivity.
Qed.

Lemma take_name_stop (l r : list ascii) :
  forallb (fun c => negb (is_slash c)) l = true ->
  take_name (l ++ "/"%char :: r) = l.
Proof.
  induction l as [| c l IH]; cbn; [reflexivity |].
  intros H. apply andb_true_iff in H. destruct H as [Hc Hl].
  destruct (is_slash c); [discriminate Hc |].
  rewrite (IH Hl). reflexivity.
Qed.

Lemma take_name_all (l : list ascii) :
  forallb (fun c => negb (is_slash c)) l = true -> take_name l = l.
Proof.
  induction l as [| c l IH]; cbn; [reflexivity |].
  intros H. apply andb_true_iff in H. destruct H as [Hc Hl].
  destruct (is_slash c); [discriminate Hc |].
  rewrite (IH Hl). reflexivity.
Qed.

Lemma drop_slashes_plain_head (l : list ascii) :
  l <> [] ->
  forallb (fun c => negb (is_slash c)) l = true ->
  forall r, drop_slashes (l ++ r) = (l ++ r)%list.
Proof.
  destruct l as [| c l]; [congruence |]. cbn. intros _ H r.
  apply andb_true_iff in H. destruct H as [Hc _].
  destruct (is_slash c); [discriminate Hc | reflexivity].
Qed.

Lemma forallb_rev {A} (f : A -> bool) (l : list A) :
  forallb f (rev l) = forallb f l.
Proof.
  induction l as [| x l IH]; cbn; [reflexivity |].
  rewrite forallb_app, IH. cbn. rewrite andb_true_r. apply andb_comm.
Qed.

(** X14.  The filename an upload announces is the last component of
    [file_path]: it never contains a slash; for [dir/name] it is [name],
    also when slashes trail; and a path without any slash is its own
    filename. *)
Theorem filename_is_last_component :
  (forall p, no_slash (basename p) = true)
  /\ (forall d n, n <> "" -> no_slash n = true -> basename (d ++ "/" ++ n) = n)
  /\ (forall d n, n <> "" -> no_slash n = true ->
                  basename (d ++ "/" ++ n ++ "/") = n)
  /\ (forall n, no_slash n = true -> basename n = n).
Proof.
  assert (Hrev : forall n, n <> "" -> rev (list_ascii_of_string n) <> []).
  { intros n Hn E. apply (f_equal (@rev ascii)) in E.
    rewrite rev_involutive in E. destruct n; [congruence | discriminate E]. }
  split; [| split; [| split]].
  - intros p. unfold basename. rewrite no_slash_of_list, forallb_rev.
    apply take_name_plain.
  - intros d n Hn Hs. unfold basename.
    rewrite !list_ascii_app, !rev_app_distr. cbn [list_ascii_of_string rev].
    rewrite <- !app_assoc. cbn [List.app].
    rewrite no_slash_list, <- forallb_rev in Hs.
    rewrite (drop_slashes_plain_head _ (Hrev n Hn) Hs).
    rewrite (take_name_stop _ _ Hs), rev_involutive.
    apply string_of_list_ascii_of_string.
  - intros d n Hn Hs. unfold basename.
    rewrite !list_ascii_app, !rev_app_distr. cbn [list_ascii_of_string rev].
    rewrite <- !app_assoc. cbn [List.app drop_slashes is_slash Ascii.eqb Bool.eqb andb].
    rewrite no_slash_list, <- forallb_rev in Hs.
    rewrite (drop_slashes_plain_head _ (Hrev n Hn) Hs).
    rewrite (take_name_stop _ _ Hs), rev_involutive.
    apply string_of_list_ascii_of_string.
  - intros n Hs. unfold basename.
    rewrite no_slash_list, <- forallb_rev in Hs.
    destruct (rev (list_ascii_of_string n)) as [| c l] eqn:E.
    + cbn. apply (f_equal (@rev ascii)) in E. rewrite rev_involutive in E.
      destruct n; [reflexivity | discriminate E].
    + assert (D : drop_slashes (c :: l) = c :: l).
      { cbn in Hs |- *. destruct (is_slash c); [discriminate Hs | reflexivity]. }
      rewrite D, (take_name_all _ Hs), <- E, rev_involutive.
      apply string_of_list_ascii_of_string.
Qed.

Lemma filename_is_last_component_witness :
  basename ("/tmp/dir" ++ "/" ++ "shot.png") = "shot.png"
  /\ basename ("/tmp" ++ "/" ++ "dir" ++ "/") = "dir"
  /\ basename "shot.png" = "shot.png".
Proof.
  split; [| split].
  - apply (proj1 (proj2 filename_is_last_component) "/tmp/dir" "shot.png");
      [discriminate | reflexivity].
  - apply (proj1 (proj2 (proj2 filename_is_last_component)) "/tmp" "dir");
      [discriminate | reflexivity].
  - apply (proj2 (proj2 (proj2 filename_is_last_component)) "shot.png").
    reflexivity.
Defined.

(** * The first separator, for every tool *)

(** X15.  Whatever a tool appends to its operation path, it starts with
    [&], with the single exception of [get_attachments_for_run], which
    starts with [?]. *)
Theorem first_separator_by_tool (w : World) (s : UserSession) (t : Tool)
    (o : Object) (req : Request) :
  getCurrentUserSession w = Some s ->
  plain_values o = true ->
  In req (sent (CallTool (tool_name t) (Some o) w)) ->
  first_separator (endpoint_of s req) = None
  \/ first_separator (endpoint_of s req)
     = Some (match t with
             | get_attachments_for_run => "?"%char
             | _ => "&"%char
             end).
Proof.
  intros H Hplain Hin. rewrite CallTool_run, switch_tool in Hin.
  change (sent (?a, ?b)) with b in Hin.
  destruct t;
    first [ exact (first_separator_of_run w s o req H Hplain Hin)
          | apply (first_separator_ampersand w s _ o req H Hplain Hin);
            discriminate ].
Qed.

Lemma first_separator_by_tool_witness :
  first_separator
    (endpoint_of example_session
       (json_request example_session "delete_cases/1&suite_id=2&soft=1" POST
          (JObj [("case_ids", JArr [JNum 5])]))) = None
  \/ first_separator
       (endpoint_of example_session
          (json_request example_session "delete_cases/1&suite_id=2&soft=1" POST
             (JObj [("case_ids", JArr [JNum 5])]))) = Some "&"%char.
Proof.
  apply (first_separator_by_tool example_world example_session delete_cases
           [("project_id", JNum 1); ("suite_id", JNum 2); ("soft", JNum 1);
            ("case_ids", JArr [JNum 5])]).
  - reflexivity.
  - reflexivity.
  - left. reflexivity.
Defined.

(** * What a call depends on *)

Lemma session_same (w w' : World) :
  env_TESTRAIL_URL w = env_TESTRAIL_URL w' ->
  env_TESTRAIL_USERNAME w = env_TESTRAIL_USERNAME w' ->
  env_TESTRAIL_API_KEY w = env_TESTRAIL_API_KEY w' ->
  userSessions w = userSessions w' ->
  getCurrentUserSession w = getCurrentUserSession w'.
Proof.
  intros E1 E2 E3 E4. unfold getCurrentUserSession.
  rewrite E1, E2, E3, E4. reflexivity.
Qed.

Lemma makeRequest_same {B} (endpoint : string) (m : Method) (d : JsValue)
    (g : JsValue -> B) (w w' : World) :
  getCurrentUserSession w = getCurrentUserSession w' ->
  (forall r, axios_result w r = axios_result w' r) ->
  bind (makeRequest endpoint m d) (fun x => ret (g x)) w
  = bind (makeRequest endpoint m d) (fun x => ret (g x)) w'.
Proof.
  intros S A. destruct (getCurrentUserSession w') as [s |] eqn:H.
  - rewrite (makeRequest_present _ _ _ _ w s S),
      (makeRequest_present _ _ _ _ w' s H), A. reflexivity.
  - rewrite (makeRequest_absent _ _ _ _ w S), (makeRequest_absent _ _ _ _ w' H).
    reflexivity.
Qed.

Lemma getAttachment_same (a : JsValue) (w w' : World) :
  getCurrentUserSession w = getCurrentUserSession w' ->
  (forall r, axios_result w r = axios_result w' r) ->
  getAttachment a w = getAttachment a w'.
Proof.
  intros S A. destruct (getCurrentUserSession w') as [s |] eqn:H.
  - rewrite (getAttachment_present a w s S), (getAttachment_present a w' s H), A.
    reflexivity.
  - rewrite (getAttachment_absent a w S), (getAttachment_absent a w' H).
    reflexivity.
Qed.

Lemma run_case_same (t : Tool) (args : Args) (w w' : World) :
  is_upload t = false ->
  getCurrentUserSession w = getCurrentUserSession w' ->
  (forall r, axios_result w r = axios_result w' r) ->
  run_case t args w = run_case t args w'.
Proof.
  intros U S A. destruct args as [o |].
  - destruct t; try discriminate U; enter_case; rewrite ?bind_reading;
      first [ exact (makeRequest_same _ _ _ (fun x => formatResponse x) w w' S A)
            | exact (makeRequest_same _ _ _ (fun _ => formatResponse _) w w' S A)
            | exact (getAttachment_same _ w w' S A) ].
  - destruct t; try discriminate U; enter_args_case; enter_plain_case;
      first [ reflexivity
            | exact (makeRequest_same _ _ _ (fun x => formatResponse x) w w' S A) ].
Qed.

(** X16.  Only the five uploads look at the file system or draw a random
    boundary: for every other tool, two worlds with the same environment
    variables, the same session map and the same remote service give the
    same requests and the same answer. *)
Theorem only_uploads_touch_files (w w' : World) (t : Tool) (args : Args) :
  is_upload t = false ->
  env_TESTRAIL_URL w = env_TESTRAIL_URL w' ->
  env_TESTRAIL_USERNAME w = env_TESTRAIL_USERNAME w' ->
  env_TESTRAIL_API_KEY w = env_TESTRAIL_API_KEY w' ->
  userSessions w = userSessions w' ->
  (forall r, axios_result w r = axios_result w' r) ->
  CallTool (tool_name t) args w = CallTool (tool_name t) args w'.
Proof.
  intros U E1 E2 E3 E4 A. rewrite !CallTool_run, !switch_tool.
  rewrite (run_case_same t args w w' U (session_same w w' E1 E2 E3 E4) A).
  reflexivity.
Qed.

Lemma only_uploads_touch_files_witness :
  CallTool (tool_name delete_attachment) (Some [("attachment_id", JStr "a1")])
    example_world
  = CallTool (tool_name delete_attachment) (Some [("attachment_id", JStr "a1")])
      other_disk_world.
Proof.
  apply (only_uploads_touch_files example_world other_disk_world delete_attachment
           (Some [("attachment_id", JStr "a1")])); reflexivity.
Defined.

Lemma makeRequest_sent_same {B} (endpoint : string) (m : Method) (d : JsValue)
    (g : JsValue -> B) (w w' : World) :
  getCurrentUserSession w = getCurrentUserSession w' ->
  sent (bind (makeRequest endpoint m d) (fun x => ret (g x)) w)
  = sent (bind (makeRequest endpoint m d) (fun x => ret (g x)) w').
Proof.
  intros S. destruct (getCurrentUserSession w') as [s |] eqn:H.
  - rewrite (makeRequest_present _ _ _ _ w s S),
      (makeRequest_present _ _ _ _ w' s H).
    destruct (axios_result w _), (axios_result w' _); reflexivity.
  - rewrite (makeRequest_absent _ _ _ _ w S), (makeRequest_absent _ _ _ _ w' H).
    reflexivity.
Qed.

Lemma getAttachment_sent_same (a : JsValue) (w w' : World) :
  getCurrentUserSession w = getCurrentUserSession w' ->
  sent (getAttachment a w) = sent (getAttachment a w').
Proof.
  intros S. destruct (getCurrentUserSession w') as [s |] eqn:H.
  - rewrite (getAttachment_present a w s S), (getAttachment_present a w' s H).
    destruct (axios_result w _), (axios_result w' _); reflexivity.
  - rewrite (getAttachment_absent a w S), (getAttachment_absent a w' H).
    reflexivity.
Qed.

Lemma makeMultipartRequest_sent_same (endpoint : string) (f : JsValue)
    (w w' : World) :
  getCurrentUserSession w = getCurrentUserSession w' ->
  fs_read_path w = fs_read_path w' ->
  fs_read_fd w = fs_read_fd w' ->
  random_base36 w = random_base36 w' ->
  sent (bind (makeMultipartRequest endpoint f)
          (fun data => ret (formatResponse data)) w)
  = sent (bind (makeMultipartRequest endpoint f)
            (fun data => ret (formatResponse data)) w').
Proof.
  intros S F1 F2 R.
  unfold makeMultipartRequest, bind, readFileSync, path_basename,
    ask, lift, throw, ret, axios, sent.
  cbn. rewrite S.
  destruct (getCurrentUserSession w') as [s |]; [| reflexivity].
  destruct f as [| | b | fd | p | l | l]; cbn; rewrite ?F1, ?F2, ?R;
    try reflexivity.
  destruct (fs_read_path w' p) as [bytes | e]; cbn; [| reflexivity].
  destruct (axios_result w _), (axios_result w' _); reflexivity.
Qed.

Lemma run_case_sent_same (t : Tool) (args : Args) (w w' : World) :
  getCurrentUserSession w = getCurrentUserSession w' ->
  fs_read_path w = fs_read_path w' ->
  fs_read_fd w = fs_read_fd w' ->
  random_base36 w = random_base36 w' ->
  sent (run_case t args w) = sent (run_case t args w').
Proof.
  intros S F1 F2 R. destruct args as [o |].
  - destruct t; enter_case; rewrite ?bind_reading;
      first [ exact (makeRequest_sent_same _ _ _ (fun x => formatResponse x) w w' S)
            | exact (makeRequest_sent_same _ _ _ (fun _ => formatResponse _) w w' S)
            | exact (makeMultipartRequest_sent_same _ _ w w' S F1 F2 R)
            | exact (getAttachment_sent_same _ w w' S) ].
  - destruct t; enter_args_case; enter_plain_case;
      first [ reflexivity
            | exact (makeRequest_sent_same _ _ _ (fun x => formatResponse x) w w' S) ].
Qed.

(** X17.  What a call sends is settled before the remote service
    answers: two worlds that differ only in the remote service see the
    same requests, for every name and every argument value.  No request
    is built from a response and none follows one. *)
Theorem requests_ignore_the_remote (w w' : World) (n : string) (args : Args) :
  env_TESTRAIL_URL w = env_TESTRAIL_URL w' ->
  env_TESTRAIL_USERNAME w = env_TESTRAIL_USERNAME w' ->
  env_TESTRAIL_API_KEY w = env_TESTRAIL_API_KEY w' ->
  userSessions w = userSessions w' ->
  fs_read_path w = fs_read_path w' ->
  fs_read_fd w = fs_read_fd w' ->
  random_base36 w = random_base36 w' ->
  sent (CallTool n args w) = sent (CallTool n args w').
Proof.
  intros E1 E2 E3 E4 F1 F2 R. rewrite !CallTool_run.
  change (sent (?a, ?b)) with b. unfold switch.
  destruct (tool_of_name n) as [t |]; [| reflexivity].
  exact (run_case_sent_same t args w w' (session_same w w' E1 E2 E3 E4) F1 F2 R).
Qed.

Lemma requests_ignore_the_remote_witness :
  sent (CallTool "add_run" (Some [("project_id", JNum 1); ("name", JStr "R")])
          example_world)
  = sent (CallTool "add_run" (Some [("project_id", JNum 1); ("name", JStr "R")])
            failing_world).
Proof.
  apply (requests_ignore_the_remote example_world failing_world "add_run"
           (Some [("project_id", JNum 1); ("name", JStr "R")])); reflexivity.
Defined.

(** * Body fields are arguments *)

Lemma sent_field_cons_inv (k : string) (x : JsValue) (o : Object) (p : string)
    (v : JsValue) :
  sent_field ((k, x) :: o) p = Some v ->
  (p = k /\ v = x) \/ sent_field o p = Some v.
Proof.
  rewrite sent_field_cons.
  destruct (defined x); cbn [andb]; [| right; assumption].
  destruct (String.eqb_spec k p) as [-> | N].
  - intros E. injection E as <-. left. split; reflexivity.
  - right. assumption.
Qed.

Lemma sent_field_set_when_inv (c : bool) (k : string) (x : JsValue) (o : Object)
    (p : string) (v : JsValue) :
  (c = true -> defined x = true) ->
  sent_field (set_when c k x o) p = Some v ->
  (p = k /\ v = x) \/ sent_field o p = Some v.
Proof.
  intros D. destruct c; cbn [set_when]; [| right; assumption].
  destruct (String.eqb_spec k p) as [-> | N].
  - rewrite sent_field_set_prop_same by (apply D; reflexivity).
    intros E. injection E as <-. left. split; reflexivity.
  - rewrite sent_field_set_prop_other by (apply String.eqb_neq; exact N).
    right. assumption.
Qed.

Lemma sent_field_copy_if_truthy_inv (args : Object) (k : string) (o : Object)
    (p : string) (v : JsValue) :
  sent_field (copy_if_truthy args k o) p = Some v ->
  (p = k /\ v = prop args k) \/ sent_field o p = Some v.
Proof. apply sent_field_set_when_inv. apply truthy_defined. Qed.

Lemma sent_field_copy_if_defined_inv (args : Object) (k : string) (o : Object)
    (p : string) (v : JsValue) :
  sent_field (copy_if_defined args k o) p = Some v ->
  (p = k /\ v = prop args k) \/ sent_field o p = Some v.
Proof. apply sent_field_set_when_inv. intros E. exact E. Qed.

Lemma body_field_from_arguments (w : World) (s : UserSession) (t : Tool)
    (o : Object) (req : Request) (p : string) (v : JsValue) :
  getCurrentUserSession w = Some s ->
  In req (sent (run_case t (Some o) w)) ->
  body_field req p = Some v ->
  In p (declared_params t) /\ v = prop o p.
Proof.
  intros H Hin. revert Hin.
  destruct t; enter_case; intros Hin; the_request H s req Hin;
    cbn [body_field data json_request multipart_request attachment_request];
    intros Hb; try discriminate Hb;
    repeat (first [ apply sent_field_copy_if_truthy_inv in Hb
                  | apply sent_field_copy_if_defined_inv in Hb
                  | apply sent_field_cons_inv in Hb ];
            destruct Hb as [[-> ->] | Hb];
            [split; [vm_compute; tauto | reflexivity] |]);
    discriminate Hb.
Qed.

(** X18.  A JSON body holds nothing but arguments: every field of the
    body of a request is a parameter that the tool's registry entry
    declares, and its value is the caller's value for that parameter,
    unchanged (arrays and objects included). *)
Theorem body_fields_are_arguments (w : World) (s : UserSession) (t : Tool)
    (o : Object) (req : Request) (p : string) (v : JsValue) :
  getCurrentUserSession w = Some s ->
  In req (sent (CallTool (tool_name t) (Some o) w)) ->
  body_field req p = Some v ->
  In p (declared_params t) /\ v = prop o p.
Proof.
  intros H Hin Hb. rewrite CallTool_run, switch_tool in Hin.
  change (sent (?a, ?b)) with b in Hin.
  exact (body_field_from_arguments w s t o req p v H Hin Hb).
Qed.

Lemma body_fields_are_arguments_witness :
  In "results" (declared_params add_results)
  /\ JArr [JObj [("test_id", JNum 1); ("status_id", JNum 5)];
           JObj [("test_id", JNum 2); ("status_id", JNum 1)]]
     = prop [("run_id", JNum 4);
             ("results",
              JArr [JObj [("test_id", JNum 1); ("status_id", JNum 5)];
                    JObj [("test_id", JNum 2); ("status_id", JNum 1)]])]
         "results".
Proof.
  apply (body_fields_are_arguments example_world example_session add_results
           [("run_id", JNum 4);
            ("results",
             JArr [JObj [("test_id", JNum 1); ("status_id", JNum 5)];
                   JObj [("test_id", JNum 2); ("status_id", JNum 1)]])]
           (json_request example_session "add_results/4" POST
              (JObj [("results",
                      JArr [JObj [("test_id", JNum 1); ("status_id", JNum 5)];
                            JObj [("test_id", JNum 2); ("status_id", JNum 1)]])]))
           "results").
  - reflexivity.
  - left. reflexivity.
  - reflexivity.
Defined.

(** * The shape of the envelope *)

(** X19.  Whatever happens, the handler returns an envelope with exactly
    one content item, of type [text]: the pretty-printed JSON of the
    answer, or the [Error: ...] line. *)
Theorem envelope_is_one_text_item (w : World) (n : string) (args : Args) :
  exists r txt,
    result (CallTool n args w) = Returned r
    /\ content r = [ {| type := "text"; text := txt |} ].
Proof.
  rewrite CallTool_run. unfold result at 1. cbn [fst].
  destruct (result (switch n args w)) as [r | e] eqn:E; cbn [settle].
  - unfold switch in E. destruct (tool_of_name n) as [t |]; [| discriminate E].
    destruct (run_case_returns_formatted t args w r E) as (d & ->).
    do 2 eexists. split; reflexivity.
  - do 2 eexists. split; reflexivity.
Qed.
